(** * Bootstrap / refresh state machine of libcouchbase (src/bootstrap.c)

    A shallow embedding of [src/bootstrap.c].  Every C function of the file
    becomes a computation in a small state-and-failure monad over the client
    instance ([lcb_t]).  Failure ([None]) stands for undefined behaviour of
    the C code: dereferencing a NULL pointer or calling a NULL function
    pointer.

    The collaborators of the file (configuration monitor, timer, pending
    operation counter, user callbacks, logger) live in other translation
    units.  Every call to one of their mutating functions is recorded, most
    recent first, in the [trace] of the instance; the part of their state the
    code reads back is kept as plain fields. *)

From Stdlib Require Import String ZArith List Bool Lia.
Import ListNotations.
Local Open Scope Z_scope.
Local Open Scope list_scope.

(** ** Types of the headers *)

(** Error codes.  The source names four of them; [LCB_ERRCODE] stands for
    the other codes of the enumeration (network errors and the like, as
    reported by the configuration monitor). *)
Inductive lcb_error_t : Type :=
| LCB_SUCCESS
| LCB_ERROR
| LCB_ETIMEDOUT
| LCB_CLIENT_ENOMEM
| LCB_ERRCODE (code : Z).

Inductive clconfig_event_t : Type :=
| CLCONFIG_EVENT_GOT_NEW_CONFIG
| CLCONFIG_EVENT_GOT_ANY_CONFIG
| CLCONFIG_EVENT_PROVIDERS_CYCLED
| CLCONFIG_EVENT_MONITOR_STOPPED.

(** Configuration providers (origins of a configuration). *)
Inductive clconfig_method_t : Type :=
| LCB_CLCONFIG_FILE
| LCB_CLCONFIG_CCCP
| LCB_CLCONFIG_HTTP
| LCB_CLCONFIG_USER
| LCB_CLCONFIG_MCRAW.

Inductive lcb_type_t : Type :=
| LCB_TYPE_BUCKET
| LCB_TYPE_CLUSTER.

Inductive lcbvb_DISTTYPE : Type :=
| LCBVB_DIST_VBUCKET
| LCBVB_DIST_KETAMA.

Inductive log_level : Type :=
| LCB_LOG_DEBUG
| LCB_LOG_INFO
| LCB_LOG_ERR.

(** The two functions a timer of this file can be aimed at. *)
Inductive timer_target : Type :=
| tgt_initial_timeout
| tgt_async_refresh.

(** Values of [listener.callback]; [cb_NULL] is what [calloc] leaves. *)
Inductive listener_cb : Type :=
| cb_NULL
| cb_config_callback
| cb_async_step_callback.

Definition hrtime_t : Type := Z.

Definition lcb_error_eq_dec (a b : lcb_error_t) : {a = b} + {a <> b}.
Proof. decide equality. apply Z.eq_dec. Defined.

Definition clconfig_event_eq_dec (a b : clconfig_event_t) : {a = b} + {a <> b}.
Proof. decide equality. Defined.

Definition clconfig_method_eq_dec (a b : clconfig_method_t) : {a = b} + {a <> b}.
Proof. decide equality. Defined.

Definition lcb_type_eq_dec (a b : lcb_type_t) : {a = b} + {a <> b}.
Proof. decide equality. Defined.

Definition lcbvb_DISTTYPE_eq_dec (a b : lcbvb_DISTTYPE) : {a = b} + {a <> b}.
Proof. decide equality. Defined.

Definition timer_target_eq_dec (a b : timer_target) : {a = b} + {a <> b}.
Proof. decide equality. Defined.

(** ** Data *)

(** A topology snapshot: only its distribution type matters here; [vb_id]
    tells snapshots apart. *)
Record lcbvb_CONFIG : Type := mk_vbc {
  vb_disttype : lcbvb_DISTTYPE;
  vb_id : Z
}.

Record clconfig_info : Type := mk_info {
  origin : clconfig_method_t;
  vbc : lcbvb_CONFIG
}.

(** The timer primitive ([lcbio_TIMER]): armed or not, and the function it
    runs when it fires. *)
Record lcbio_TIMER : Type := mk_timer {
  tm_armed : bool;
  tm_target : timer_target
}.

(** [struct lcb_bootstrap_st].  The [parent] back pointer is left out: the
    model has one instance, which is the state itself. *)
Record lcb_bootstrap_st : Type := mk_bs {
  listener_callback : listener_cb;
  tm : lcbio_TIMER;
  last_refresh : hrtime_t;
  bootstrapped : Z;
  errcounter : Z
}.

(** What the code reads back from the configuration monitor. *)
Record lcb_confmon : Type := mk_confmon {
  cm_is_refreshing : bool;
  cm_config : option clconfig_info;
  cm_last_error : lcb_error_t;
  cm_rest_connection : bool;
  cm_start_status : lcb_error_t
}.

Record lcb_settings : Type := mk_settings {
  config_timeout : Z;
  weird_things_threshold : Z;
  weird_things_delay : Z;
  bc_http_stream_time : Z
}.

(** Calls into other translation units and into the user's callbacks. *)
Inductive call : Type :=
| call_lcb_log (lvl : log_level) (fmt : string)
| call_callbacks_error (err : lcb_error_t) (errinfo : string)
| call_callbacks_bootstrap (err : lcb_error_t)
| call_lcb_maybe_breakout
| call_lcb_aspend_add
| call_lcb_aspend_del
| call_lcb_update_vbconfig (info : clconfig_info)
| call_lcb_confmon_prepare
| call_lcb_confmon_add_listener
| call_lcb_confmon_remove_listener
| call_lcb_confmon_start
| call_lcb_confmon_set_provider_active (provider : clconfig_method_t) (enabled : Z)
| call_lcbio_timer_new (target : timer_target)
| call_lcbio_timer_destroy
| call_lcbio_timer_set_target (target : timer_target)
| call_lcbio_timer_rearm (usec : Z)
| call_lcbio_timer_disarm
| call_lcbio_async_signal.

(** The client instance ([lcb_t]), restricted to what bootstrap.c touches.
    [vbconfig] is what the macro [LCBT_VBCONFIG] reads; [pendops] is the
    counter behind [lcb_aspend_add] and [lcb_aspend_del]. *)
Record lcb_st : Type := mk_instance {
  bootstrap : option lcb_bootstrap_st;
  confmon : lcb_confmon;
  settings : lcb_settings;
  last_error : lcb_error_t;
  type : lcb_type_t;
  dist_type : lcbvb_DISTTYPE;
  cur_configinfo : option clconfig_info;
  vbconfig : option lcbvb_CONFIG;
  pendops : Z;
  trace : list call
}.

(** *** Field updates *)

Definition set_bootstrap (v : option lcb_bootstrap_st) (s : lcb_st) : lcb_st :=
  mk_instance v (confmon s) (settings s) (last_error s) (type s) (dist_type s)
    (cur_configinfo s) (vbconfig s) (pendops s) (trace s).

Definition set_settings (v : lcb_settings) (s : lcb_st) : lcb_st :=
  mk_instance (bootstrap s) (confmon s) v (last_error s) (type s) (dist_type s)
    (cur_configinfo s) (vbconfig s) (pendops s) (trace s).

Definition set_confmon (v : lcb_confmon) (s : lcb_st) : lcb_st :=
  mk_instance (bootstrap s) v (settings s) (last_error s) (type s) (dist_type s)
    (cur_configinfo s) (vbconfig s) (pendops s) (trace s).

Definition set_last_error (v : lcb_error_t) (s : lcb_st) : lcb_st :=
  mk_instance (bootstrap s) (confmon s) (settings s) v (type s) (dist_type s)
    (cur_configinfo s) (vbconfig s) (pendops s) (trace s).

Definition set_topology (d : lcbvb_DISTTYPE) (ci : option clconfig_info)
    (vb : option lcbvb_CONFIG) (s : lcb_st) : lcb_st :=
  mk_instance (bootstrap s) (confmon s) (settings s) (last_error s) (type s) d
    ci vb (pendops s) (trace s).

Definition set_pendops (v : Z) (s : lcb_st) : lcb_st :=
  mk_instance (bootstrap s) (confmon s) (settings s) (last_error s) (type s)
    (dist_type s) (cur_configinfo s) (vbconfig s) v (trace s).

Definition set_trace (v : list call) (s : lcb_st) : lcb_st :=
  mk_instance (bootstrap s) (confmon s) (settings s) (last_error s) (type s)
    (dist_type s) (cur_configinfo s) (vbconfig s) (pendops s) v.

Definition set_listener_callback (v : listener_cb) (b : lcb_bootstrap_st) : lcb_bootstrap_st :=
  mk_bs v (tm b) (last_refresh b) (bootstrapped b) (errcounter b).

Definition set_tm (v : lcbio_TIMER) (b : lcb_bootstrap_st) : lcb_bootstrap_st :=
  mk_bs (listener_callback b) v (last_refresh b) (bootstrapped b) (errcounter b).

Definition set_last_refresh (v : hrtime_t) (b : lcb_bootstrap_st) : lcb_bootstrap_st :=
  mk_bs (listener_callback b) (tm b) v (bootstrapped b) (errcounter b).

Definition set_bootstrapped (v : Z) (b : lcb_bootstrap_st) : lcb_bootstrap_st :=
  mk_bs (listener_callback b) (tm b) (last_refresh b) v (errcounter b).

Definition set_errcounter (v : Z) (b : lcb_bootstrap_st) : lcb_bootstrap_st :=
  mk_bs (listener_callback b) (tm b) (last_refresh b) (bootstrapped b) v.

Definition set_bc_http_stream_time (v : Z) (c : lcb_settings) : lcb_settings :=
  mk_settings (config_timeout c) (weird_things_threshold c) (weird_things_delay c) v.

(** ** The monad: state passing over the instance, [None] for undefined
    behaviour *)

Definition M (A : Type) : Type := lcb_st -> option (A * lcb_st).

Definition ret {A : Type} (a : A) : M A := fun s => Some (a, s).

Definition bind {A B : Type} (m : M A) (f : A -> M B) : M B :=
  fun s => match m s with
           | Some (a, s') => f a s'
           | None => None
           end.

Definition undefined {A : Type} : M A := fun _ => None.

Definition gets {A : Type} (f : lcb_st -> A) : M A := fun s => Some (f s, s).

Definition modify (f : lcb_st -> lcb_st) : M unit := fun s => Some (tt, f s).

Notation "x <- c1 ;; c2" := (bind c1 (fun x => c2))
  (at level 61, c1 at next level, right associativity).
Notation "c1 ;; c2" := (bind c1 (fun _ => c2))
  (at level 61, right associativity).

(** Final state of a computation, when it is defined. *)
Definition exec {A : Type} (m : M A) (s : lcb_st) : option lcb_st :=
  match m s with
  | Some (_, s') => Some s'
  | None => None
  end.

(** Dereferencing the session pointer ([instance->bootstrap], or the
    listener pointer, which is the same object): undefined when NULL. *)
Definition get_bs : M lcb_bootstrap_st :=
  fun s => match bootstrap s with
           | Some bs => Some (bs, s)
           | None => None
           end.

Definition modify_bs (f : lcb_bootstrap_st -> lcb_bootstrap_st) : M unit :=
  bs <- get_bs ;; modify (set_bootstrap (Some (f bs))).

Definition emit (c : call) : M unit :=
  modify (fun s => set_trace (c :: trace s) s).

(** ** Collaborators outside bootstrap.c *)

(** Modelled from the spec: the logger, the user callbacks and the "maybe
    stop waiting" hook are not under src/.  They are opaque to this file, so
    a call is only recorded; what a user callback does in turn is outside
    this model. *)
Definition lcb_log (lvl : log_level) (fmt : string) : M unit :=
  emit (call_lcb_log lvl fmt).

Definition callbacks_error (err : lcb_error_t) (errinfo : string) : M unit :=
  emit (call_callbacks_error err errinfo).

Definition callbacks_bootstrap (err : lcb_error_t) : M unit :=
  emit (call_callbacks_bootstrap err).

Definition lcb_maybe_breakout : M unit :=
  emit call_lcb_maybe_breakout.

(** Modelled from the spec: [lcb_aspend_add] and [lcb_aspend_del] with
    [LCB_PENDTYPE_COUNTER] are not under src/; they increment and decrement
    the owner's pending-operation counter.  The counter is an unbounded
    integer here, so that a surplus decrement shows as a negative value. *)
Definition lcb_aspend_add : M unit :=
  modify (fun s => set_pendops (pendops s + 1) s) ;; emit call_lcb_aspend_add.

Definition lcb_aspend_del : M unit :=
  modify (fun s => set_pendops (pendops s - 1) s) ;; emit call_lcb_aspend_del.

(** Modelled from the spec: [lcb_update_vbconfig] is not under src/; it
    applies the snapshot as the owner's active topology: the owner then
    holds the snapshot, its topology and the distribution type of that
    topology.  The snapshot is dereferenced, so a NULL one is undefined. *)
Definition lcb_update_vbconfig (info : option clconfig_info) : M unit :=
  match info with
  | None => undefined
  | Some ci =>
      modify (set_topology (vb_disttype (vbc ci)) (Some ci) (Some (vbc ci))) ;;
      emit (call_lcb_update_vbconfig ci)
  end.

(** Modelled from the spec: the macro [LCBT_VBCONFIG] is not under src/; it
    reads the owner's active topology, NULL when there is none. *)
Definition LCBT_VBCONFIG (s : lcb_st) : option lcbvb_CONFIG := vbconfig s.

(** Modelled from the spec: the macro [LCB_US2NS] is not under src/;
    microseconds to nanoseconds. *)
Definition LCB_US2NS (us : Z) : Z := us * 1000.

(** Modelled from the spec: the configuration monitor is not under src/.
    Its accessors read the fields of [lcb_confmon]; its other functions are
    recorded in the trace.  [lcb_confmon_start] returns the monitor's
    status. *)
Definition lcb_confmon_is_refreshing (s : lcb_st) : bool :=
  cm_is_refreshing (confmon s).

Definition lcb_confmon_last_error (s : lcb_st) : lcb_error_t :=
  cm_last_error (confmon s).

Definition lcb_confmon_get_config (s : lcb_st) : option clconfig_info :=
  cm_config (confmon s).

Definition lcb_confmon_get_rest_connection (s : lcb_st) : bool :=
  cm_rest_connection (confmon s).

Definition lcb_confmon_prepare : M unit :=
  emit call_lcb_confmon_prepare.

Definition lcb_confmon_add_listener : M unit :=
  emit call_lcb_confmon_add_listener.

Definition lcb_confmon_remove_listener : M unit :=
  emit call_lcb_confmon_remove_listener.

Definition lcb_confmon_set_provider_active (p : clconfig_method_t) (enabled : Z) : M unit :=
  emit (call_lcb_confmon_set_provider_active p enabled).

Definition lcb_confmon_start : M lcb_error_t :=
  emit call_lcb_confmon_start ;; gets (fun s => cm_start_status (confmon s)).

(** Modelled from the spec: the timer primitive is not under src/; a
    rearmable, cancelable, retargetable single-shot alarm with an immediate
    signal.  All operations act on [bs->tm]; [lcbio_timer_new] always
    returns a timer, disarmed and aimed at the given function. *)
Definition lcbio_timer_new (target : timer_target) : M unit :=
  modify_bs (set_tm (mk_timer false target)) ;; emit (call_lcbio_timer_new target).

Definition lcbio_timer_set_target (target : timer_target) : M unit :=
  modify_bs (fun b => set_tm (mk_timer (tm_armed (tm b)) target) b) ;;
  emit (call_lcbio_timer_set_target target).

Definition lcbio_timer_rearm (usec : Z) : M unit :=
  modify_bs (fun b => set_tm (mk_timer true (tm_target (tm b))) b) ;;
  emit (call_lcbio_timer_rearm usec).

Definition lcbio_async_signal : M unit :=
  modify_bs (fun b => set_tm (mk_timer true (tm_target (tm b))) b) ;;
  emit call_lcbio_async_signal.

Definition lcbio_timer_disarm : M unit :=
  modify_bs (fun b => set_tm (mk_timer false (tm_target (tm b))) b) ;;
  emit call_lcbio_timer_disarm.

Definition lcbio_timer_destroy : M unit :=
  emit call_lcbio_timer_destroy.

Definition lcbio_timer_armed (b : lcb_bootstrap_st) : bool := tm_armed (tm b).

Definition lcbio_timer_get_target (b : lcb_bootstrap_st) : timer_target := tm_target (tm b).

(** ** The functions of bootstrap.c *)

(** What [calloc] returns: every field zero. *)
Definition calloc_bs : lcb_bootstrap_st :=
  mk_bs cb_NULL (mk_timer false tgt_initial_timeout) 0 0 0.

(** [initial_bootstrap_error(instance, err, errinfo)]. *)
Definition initial_bootstrap_error (err : lcb_error_t) (errinfo : string) : M unit :=
  modify (fun s => set_last_error (lcb_confmon_last_error s) s) ;;
  modify (fun s => if lcb_error_eq_dec (last_error s) LCB_SUCCESS
                   then set_last_error err s else s) ;;
  e <- gets last_error ;;
  callbacks_error e errinfo ;;
  lcb_log LCB_LOG_ERR "Failed to bootstrap client=%p. Code=0x%x, Message=%s" ;;
  lcbio_timer_disarm ;;
  e' <- gets last_error ;;
  callbacks_bootstrap e' ;;
  lcb_aspend_del ;;
  lcb_maybe_breakout.

(** The test of lines 58-60, with its short circuit: [cur_configinfo] is
    dereferenced only when the first two conjuncts hold. *)
Definition revert_to_http_test : M bool :=
  s <- gets (fun s => s) ;;
  if lcb_type_eq_dec (type s) LCB_TYPE_BUCKET then
    if lcbvb_DISTTYPE_eq_dec (dist_type s) LCBVB_DIST_KETAMA then
      match cur_configinfo s with
      | Some ci =>
          ret (if clconfig_method_eq_dec (origin ci) LCB_CLCONFIG_MCRAW then false else true)
      | None => undefined
      end
    else ret false
  else ret false.

(** [config_callback(listener, event, info)]. *)
Definition config_callback (event : clconfig_event_t) (info : option clconfig_info) : M unit :=
  _ <- get_bs ;;
  if clconfig_event_eq_dec event CLCONFIG_EVENT_GOT_NEW_CONFIG then
    modify (set_last_error LCB_SUCCESS) ;;
    modify_bs (set_listener_callback cb_async_step_callback) ;;
    lcbio_timer_disarm ;;
    lcb_log LCB_LOG_DEBUG "Instance configured!" ;;
    ty <- gets type ;;
    (if lcb_type_eq_dec ty LCB_TYPE_CLUSTER then ret tt
     else lcb_update_vbconfig info) ;;
    bs <- get_bs ;;
    (if bootstrapped bs =? 0 then
       modify_bs (set_bootstrapped 1) ;;
       lcb_aspend_del ;;
       revert <- revert_to_http_test ;;
       (if revert : bool then
          lcb_log LCB_LOG_INFO "Reverting to HTTP Config for memcached buckets" ;;
          modify (fun s => set_settings (set_bc_http_stream_time (-1) (settings s)) s) ;;
          lcb_confmon_set_provider_active LCB_CLCONFIG_HTTP 1 ;;
          lcb_confmon_set_provider_active LCB_CLCONFIG_CCCP 0
        else ret tt) ;;
       callbacks_bootstrap LCB_SUCCESS
     else ret tt) ;;
    lcb_maybe_breakout
  else
    if clconfig_event_eq_dec event CLCONFIG_EVENT_PROVIDERS_CYCLED then
      vb <- gets LCBT_VBCONFIG ;;
      match vb with
      | None => initial_bootstrap_error LCB_ERROR "No more bootstrap providers remain"
      | Some _ => ret tt
      end
    else ret tt.

(** [initial_timeout(arg)]. *)
Definition initial_timeout : M unit :=
  _ <- get_bs ;;
  initial_bootstrap_error LCB_ETIMEDOUT "Failed to bootstrap in time".

(** [async_refresh(arg)]. *)
Definition async_refresh : M unit :=
  _ <- get_bs ;;
  info <- gets lcb_confmon_get_config ;;
  config_callback CLCONFIG_EVENT_GOT_NEW_CONFIG info.

(** [async_step_callback(listener, event, info)]. *)
Definition async_step_callback (event : clconfig_event_t) (info : option clconfig_info) : M unit :=
  if clconfig_event_eq_dec event CLCONFIG_EVENT_GOT_NEW_CONFIG then
    bs <- get_bs ;;
    if lcbio_timer_armed bs && (if timer_target_eq_dec (lcbio_timer_get_target bs) tgt_async_refresh then true else false) then
      lcb_log LCB_LOG_DEBUG "Timer already present.."
    else
      lcb_log LCB_LOG_INFO "Got async step callback.." ;;
      lcbio_timer_set_target tgt_async_refresh ;;
      lcbio_async_signal
  else ret tt.

(** Lines 164-177 of [bootstrap_common]: what runs once the session
    exists.  [now] is what [gethrtime] returns. *)
Definition bootstrap_common_start (now : hrtime_t) (initial : Z) : M lcb_error_t :=
  modify_bs (set_last_refresh now) ;;
  (if negb (initial =? 0) then
     modify_bs (set_listener_callback cb_config_callback) ;;
     lcbio_timer_set_target tgt_initial_timeout ;;
     timeout <- gets (fun s => config_timeout (settings s)) ;;
     lcbio_timer_rearm timeout ;;
     lcb_aspend_add
   else
     modify_bs (set_listener_callback cb_async_step_callback)) ;;
  lcb_confmon_start.

(** [bootstrap_common(instance, initial)].  [calloc_ok] tells whether the
    [calloc] of line 153 succeeds, should it run. *)
Definition bootstrap_common (now : hrtime_t) (calloc_ok : bool) (initial : Z) : M lcb_error_t :=
  bs <- gets bootstrap ;;
  match bs with
  | Some _ =>
      refreshing <- gets lcb_confmon_is_refreshing ;;
      if refreshing : bool then ret LCB_SUCCESS
      else bootstrap_common_start now initial
  | None =>
      if calloc_ok then
        modify (set_bootstrap (Some calloc_bs)) ;;
        lcbio_timer_new tgt_initial_timeout ;;
        lcb_confmon_add_listener ;;
        bootstrap_common_start now initial
      else ret LCB_CLIENT_ENOMEM
  end.

Definition lcb_bootstrap_initial (now : hrtime_t) (calloc_ok : bool) : M lcb_error_t :=
  lcb_confmon_prepare ;;
  bootstrap_common now calloc_ok 1.

Definition lcb_bootstrap_refresh (now : hrtime_t) (calloc_ok : bool) : M lcb_error_t :=
  bootstrap_common now calloc_ok 0.

(** [errcounter] is an [unsigned]: the increment wraps at 2^32. *)
Definition errcounter_incr (c : Z) : Z := (c + 1) mod 2 ^ 32.

(** [next_refresh_time] of [lcb_bootstrap_errcount_incr], an [hrtime_t]
    (64 bits, unsigned). *)
Definition next_refresh_time (s : lcb_st) (bs : lcb_bootstrap_st) : hrtime_t :=
  (last_refresh bs + LCB_US2NS (weird_things_delay (settings s))) mod 2 ^ 64.

(** [lcb_bootstrap_errcount_incr(instance)].  [now] is the [gethrtime] of
    line 195 and [now'] the one [bootstrap_common] reads afterwards.  The
    session exists when the refresh is reached, so no [calloc] runs there. *)
Definition lcb_bootstrap_errcount_incr (now now' : hrtime_t) : M unit :=
  errthresh <- gets (fun s => weird_things_threshold (settings s)) ;;
  modify_bs (fun b => set_errcounter (errcounter_incr (errcounter b)) b) ;;
  bs <- get_bs ;;
  next <- gets (fun s => next_refresh_time s bs) ;;
  if (now <? next) && (errcounter bs <? errthresh) then
    lcb_log LCB_LOG_INFO
      "Not requesting a config refresh because of throttling parameters. Next refresh possible in %ums or %u errors. See LCB_CNTL_CONFDELAY_THRESH and LCB_CNTL_CONFERRTHRESH to modify the throttling settings"
  else
    modify_bs (set_errcounter 0) ;;
    _ <- lcb_bootstrap_refresh now' false ;;
    ret tt.

(** [lcb_bootstrap_destroy(instance)].  The timer of a session always
    exists here, so the test of line 220 holds. *)
Definition lcb_bootstrap_destroy : M unit :=
  bs <- gets bootstrap ;;
  match bs with
  | None => ret tt
  | Some _ =>
      lcbio_timer_destroy ;;
      lcb_confmon_remove_listener ;;
      modify (set_bootstrap None)
  end.

(** [lcb_get_bootstrap_status(instance)]. *)
Definition lcb_get_bootstrap_status : M lcb_error_t :=
  s <- gets (fun s => s) ;;
  match cur_configinfo s with
  | Some _ => ret LCB_SUCCESS
  | None =>
      if lcb_error_eq_dec (last_error s) LCB_SUCCESS then
        if lcb_type_eq_dec (type s) LCB_TYPE_CLUSTER then
          if lcb_confmon_get_rest_connection s then ret LCB_SUCCESS
          else ret LCB_ERROR
        else ret LCB_ERROR
      else ret (last_error s)
  end.

(** [lcb_refresh_config(instance)]. *)
Definition lcb_refresh_config (now : hrtime_t) (calloc_ok : bool) : M unit :=
  _ <- lcb_bootstrap_refresh now calloc_ok ;; ret tt.

(** ** The event loop around the session *)

(** Modelled from the spec: the configuration monitor delivers an event by
    calling the callback of the registered listener; with no session there
    is no listener and nothing runs.  Calling a NULL callback is
    undefined. *)
Definition confmon_notify (event : clconfig_event_t) (info : option clconfig_info) : M unit :=
  bs <- gets bootstrap ;;
  match bs with
  | None => ret tt
  | Some b =>
      match listener_callback b with
      | cb_NULL => undefined
      | cb_config_callback => config_callback event info
      | cb_async_step_callback => async_step_callback event info
      end
  end.

(** Modelled from the spec: the timer is a single-shot alarm; when an armed
    timer fires it is disarmed and its target runs.  A disarmed timer (or
    no timer at all) does not fire. *)
Definition timer_fire : M unit :=
  bs <- gets bootstrap ;;
  match bs with
  | None => ret tt
  | Some b =>
      if lcbio_timer_armed b then
        modify_bs (fun b => set_tm (mk_timer false (tm_target (tm b))) b) ;;
        match lcbio_timer_get_target b with
        | tgt_initial_timeout => initial_timeout
        | tgt_async_refresh => async_refresh
        end
      else ret tt
  end.

(** What can happen to an instance: the calls of the public interface, an
    event of the monitor, the timer firing, and the monitor changing what
    it reports. *)
Inductive input : Type :=
| In_bootstrap_initial (now : hrtime_t) (calloc_ok : bool)
| In_bootstrap_refresh (now : hrtime_t) (calloc_ok : bool)
| In_errcount_incr (now now' : hrtime_t)
| In_destroy
| In_get_status
| In_notify (event : clconfig_event_t) (info : option clconfig_info)
| In_timer
| In_confmon (cm : lcb_confmon).

Definition step (i : input) : M unit :=
  match i with
  | In_bootstrap_initial now ok => _ <- lcb_bootstrap_initial now ok ;; ret tt
  | In_bootstrap_refresh now ok => _ <- lcb_bootstrap_refresh now ok ;; ret tt
  | In_errcount_incr now now' => lcb_bootstrap_errcount_incr now now'
  | In_destroy => lcb_bootstrap_destroy
  | In_get_status => _ <- lcb_get_bootstrap_status ;; ret tt
  | In_notify event info => confmon_notify event info
  | In_timer => timer_fire
  | In_confmon cm => modify (set_confmon cm)
  end.

Fixpoint run (ins : list input) (s : lcb_st) : option lcb_st :=
  match ins with
  | [] => Some s
  | i :: ins' =>
      match exec (step i) s with
      | Some s' => run ins' s'
      | None => None
      end
  end.

(** ** Reading the trace *)

Definition is_bootstrap_callback (c : call) : bool :=
  match c with
  | call_callbacks_bootstrap _ => true
  | _ => false
  end.

Definition is_aspend_del (c : call) : bool :=
  match c with
  | call_lcb_aspend_del => true
  | _ => false
  end.

Definition is_aspend_add (c : call) : bool :=
  match c with
  | call_lcb_aspend_add => true
  | _ => false
  end.

(** How many times the bootstrap-completion callback ran. *)
Definition bootstrap_callbacks (s : lcb_st) : nat :=
  length (filter is_bootstrap_callback (trace s)).

Definition aspend_dels (s : lcb_st) : nat :=
  length (filter is_aspend_del (trace s)).

Definition aspend_adds (s : lcb_st) : nat :=
  length (filter is_aspend_add (trace s)).

(** ** De-duplication and allocation failure in [bootstrap_common] *)

(** The instance after [lcb_confmon_prepare] and nothing else. *)
Definition prepared (s : lcb_st) : lcb_st :=
  set_trace (call_lcb_confmon_prepare :: trace s) s.

(** The calls made into the configuration monitor, most recent first. *)
Definition is_confmon_call (c : call) : bool :=
  match c with
  | call_lcb_confmon_prepare
  | call_lcb_confmon_add_listener
  | call_lcb_confmon_remove_listener
  | call_lcb_confmon_start
  | call_lcb_confmon_set_provider_active _ _ => true
  | _ => false
  end.

Definition confmon_calls (s : lcb_st) : list call :=
  filter is_confmon_call (trace s).

(** ** The failure path *)

(** The error [initial_bootstrap_error] reports: the monitor's last error,
    or the supplied code when the monitor has none. *)
Definition reported_error (s : lcb_st) (err : lcb_error_t) : lcb_error_t :=
  if lcb_error_eq_dec (cm_last_error (confmon s)) LCB_SUCCESS then err
  else cm_last_error (confmon s).

(** The instance after the failure path ran on a session [bs]. *)
Definition failed (s : lcb_st) (bs : lcb_bootstrap_st) (err : lcb_error_t)
    (errinfo : string) : lcb_st :=
  mk_instance
    (Some (set_tm (mk_timer false (tm_target (tm bs))) bs))
    (confmon s) (settings s) (reported_error s err) (type s) (dist_type s)
    (cur_configinfo s) (vbconfig s) (pendops s - 1)
    (call_lcb_maybe_breakout
       :: call_lcb_aspend_del
       :: call_callbacks_bootstrap (reported_error s err)
       :: call_lcbio_timer_disarm
       :: call_lcb_log LCB_LOG_ERR "Failed to bootstrap client=%p. Code=0x%x, Message=%s"
       :: call_callbacks_error (reported_error s err) errinfo
       :: trace s).

(** ** Error-driven throttled refresh *)

Definition throttle_log : call :=
  call_lcb_log LCB_LOG_INFO
    "Not requesting a config refresh because of throttling parameters. Next refresh possible in %ums or %u errors. See LCB_CNTL_CONFDELAY_THRESH and LCB_CNTL_CONFERRTHRESH to modify the throttling settings".

(** The instance after a throttled call: the counter went up and the
    suppression was logged. *)
Definition throttled (s : lcb_st) (bs : lcb_bootstrap_st) : lcb_st :=
  set_trace (throttle_log :: trace s)
    (set_bootstrap (Some (set_errcounter (errcounter_incr (errcounter bs)) bs)) s).

(** The instance with the counter back at zero, as the refresh finds it. *)
Definition counter_reset (s : lcb_st) (bs : lcb_bootstrap_st) : lcb_st :=
  set_bootstrap (Some (set_errcounter 0 bs)) s.

(** Whether a call at [now] is suppressed. *)
Definition suppressed (s : lcb_st) (bs : lcb_bootstrap_st) (now : hrtime_t) : bool :=
  (now <? next_refresh_time s bs)
  && (errcounter_incr (errcounter bs) <? weird_things_threshold (settings s)).

(** The instance after a refresh that was not de-duplicated, on a session
    [bs]. *)
Definition refreshed (s : lcb_st) (bs : lcb_bootstrap_st) (now : hrtime_t) : lcb_st :=
  set_trace (call_lcb_confmon_start :: trace s)
    (set_bootstrap
       (Some (set_listener_callback cb_async_step_callback (set_last_refresh now bs))) s).

(** Final state of the third call of the throttle scenario. *)
Definition third_call_state (s2 : lcb_st) (bs2 : lcb_bootstrap_st) (now' : hrtime_t) : lcb_st :=
  if lcb_confmon_is_refreshing s2 then counter_reset s2 bs2
  else refreshed (counter_reset s2 bs2) (set_errcounter 0 bs2) now'.

(** ** The success path *)

(** Lines 43-52 of [config_callback] on a session [bs]: last error
    cleared, listener switched to the deferred target, timer disarmed, and
    the snapshot applied unless the instance is of cluster type. *)
Definition config_applied (s : lcb_st) (bs : lcb_bootstrap_st)
    (info : option clconfig_info) : lcb_st :=
  let bs1 := set_tm (mk_timer false (tm_target (tm bs)))
               (set_listener_callback cb_async_step_callback bs) in
  let s1 := set_trace (call_lcb_log LCB_LOG_DEBUG "Instance configured!"
                         :: call_lcbio_timer_disarm :: trace s)
              (set_bootstrap (Some bs1) (set_last_error LCB_SUCCESS s)) in
  match type s, info with
  | LCB_TYPE_BUCKET, Some ci =>
      set_trace (call_lcb_update_vbconfig ci :: trace s1)
        (set_topology (vb_disttype (vbc ci)) (Some ci) (Some (vbc ci)) s1)
  | _, _ => s1
  end.

(** The test of lines 58-60 as a total function of the instance. *)
Definition reverts_to_http (s : lcb_st) : bool :=
  match type s, dist_type s, cur_configinfo s with
  | LCB_TYPE_BUCKET, LCBVB_DIST_KETAMA, Some ci =>
      if clconfig_method_eq_dec (origin ci) LCB_CLCONFIG_MCRAW then false else true
  | _, _, _ => false
  end.

(** The calls of the provider-adjustment policy, most recent first. *)
Definition revert_calls : list call :=
  [call_lcb_confmon_set_provider_active LCB_CLCONFIG_CCCP 0;
   call_lcb_confmon_set_provider_active LCB_CLCONFIG_HTTP 1;
   call_lcb_log LCB_LOG_INFO "Reverting to HTTP Config for memcached buckets"].

(** Lines 55-69: the first success, on an instance [s1] whose session is
    [bs1]. *)
Definition first_success (s1 : lcb_st) (bs1 : lcb_bootstrap_st) : lcb_st :=
  let s2 := set_trace (call_lcb_aspend_del :: trace s1)
              (set_pendops (pendops s1 - 1)
                 (set_bootstrap (Some (set_bootstrapped 1 bs1)) s1)) in
  let s3 := if reverts_to_http s2
            then set_trace (revert_calls ++ trace s2)
                   (set_settings (set_bc_http_stream_time (-1) (settings s2)) s2)
            else s2 in
  set_trace (call_callbacks_bootstrap LCB_SUCCESS :: trace s3) s3.

(** The session as [config_applied] leaves it. *)
Definition deferred_session (bs : lcb_bootstrap_st) : lcb_bootstrap_st :=
  set_tm (mk_timer false (tm_target (tm bs)))
    (set_listener_callback cb_async_step_callback bs).

(** The whole of [config_callback] on a new configuration. *)
Definition new_config_result (s : lcb_st) (bs : lcb_bootstrap_st)
    (info : option clconfig_info) : lcb_st :=
  let s1 := config_applied s bs info in
  let s2 := if bootstrapped bs =? 0 then first_success s1 (deferred_session bs) else s1 in
  set_trace (call_lcb_maybe_breakout :: trace s2) s2.

(** ** Explicit results of the remaining functions *)

(** The instance after an initial bootstrap started on a session [bs]. *)
Definition initial_started (s : lcb_st) (bs : lcb_bootstrap_st) (now : hrtime_t) : lcb_st :=
  set_trace (call_lcb_confmon_start
               :: call_lcb_aspend_add
               :: call_lcbio_timer_rearm (config_timeout (settings s))
               :: call_lcbio_timer_set_target tgt_initial_timeout
               :: trace s)
    (set_pendops (pendops s + 1)
       (set_bootstrap
          (Some (set_tm (mk_timer true tgt_initial_timeout)
                   (set_listener_callback cb_config_callback
                      (set_last_refresh now bs)))) s)).

(** The instance with a session just allocated. *)
Definition session_created (s : lcb_st) : lcb_st :=
  set_trace (call_lcb_confmon_add_listener
               :: call_lcbio_timer_new tgt_initial_timeout :: trace s)
    (set_bootstrap (Some calloc_bs) s).

(** The instance after the deferred target scheduled a dispatch. *)
Definition dispatch_scheduled (s : lcb_st) (bs : lcb_bootstrap_st) : lcb_st :=
  set_trace (call_lcbio_async_signal
               :: call_lcbio_timer_set_target tgt_async_refresh
               :: call_lcb_log LCB_LOG_INFO "Got async step callback.."
               :: trace s)
    (set_bootstrap (Some (set_tm (mk_timer true tgt_async_refresh) bs)) s).

Definition dropped_log : call :=
  call_lcb_log LCB_LOG_DEBUG "Timer already present..".

(** Whether a deferred dispatch is scheduled: the timer is armed and aimed
    at [async_refresh]. *)
Definition dispatch_pending (bs : lcb_bootstrap_st) : bool :=
  lcbio_timer_armed bs
  && (if timer_target_eq_dec (lcbio_timer_get_target bs) tgt_async_refresh
      then true else false).

(** The instance with the timer of session [bs] disarmed by the event
    loop, as the target of a firing timer finds it. *)
Definition timer_fired (s : lcb_st) (bs : lcb_bootstrap_st) : lcb_st :=
  set_bootstrap (Some (set_tm (mk_timer false (tm_target (tm bs))) bs)) s.

(** ** The transition function in explicit form *)

Definition destroyed (s : lcb_st) : lcb_st :=
  set_bootstrap None
    (set_trace (call_lcb_confmon_remove_listener :: call_lcbio_timer_destroy :: trace s) s).

(** [config_callback] on a new configuration, as a partial function. *)
Definition on_new_config (s : lcb_st) (bs : lcb_bootstrap_st)
    (info : option clconfig_info) : option lcb_st :=
  match type s, info with
  | LCB_TYPE_BUCKET, None => None
  | _, _ => Some (new_config_result s bs info)
  end.

(** What each input does, case by case. *)
Definition next (i : input) (s : lcb_st) : option lcb_st :=
  match i with
  | In_bootstrap_initial now ok =>
      match bootstrap s with
      | Some bs =>
          if lcb_confmon_is_refreshing s then Some (prepared s)
          else Some (initial_started (prepared s) bs now)
      | None =>
          if ok then Some (initial_started (session_created (prepared s)) calloc_bs now)
          else Some (prepared s)
      end
  | In_bootstrap_refresh now ok =>
      match bootstrap s with
      | Some bs =>
          if lcb_confmon_is_refreshing s then Some s
          else Some (refreshed s bs now)
      | None =>
          if ok then Some (refreshed (session_created s) calloc_bs now)
          else Some s
      end
  | In_errcount_incr now now' =>
      match bootstrap s with
      | Some bs =>
          if suppressed s bs now then Some (throttled s bs)
          else if lcb_confmon_is_refreshing s then Some (counter_reset s bs)
               else Some (refreshed (counter_reset s bs) (set_errcounter 0 bs) now')
      | None => None
      end
  | In_destroy =>
      match bootstrap s with
      | Some _ => Some (destroyed s)
      | None => Some s
      end
  | In_get_status => Some s
  | In_notify event info =>
      match bootstrap s with
      | None => Some s
      | Some bs =>
          match listener_callback bs, event with
          | cb_NULL, _ => None
          | cb_config_callback, CLCONFIG_EVENT_GOT_NEW_CONFIG => on_new_config s bs info
          | cb_config_callback, CLCONFIG_EVENT_PROVIDERS_CYCLED =>
              match LCBT_VBCONFIG s with
              | None => Some (failed s bs LCB_ERROR "No more bootstrap providers remain")
              | Some _ => Some s
              end
          | cb_config_callback, _ => Some s
          | cb_async_step_callback, CLCONFIG_EVENT_GOT_NEW_CONFIG =>
              if dispatch_pending bs then Some (set_trace (dropped_log :: trace s) s)
              else Some (dispatch_scheduled s bs)
          | cb_async_step_callback, _ => Some s
          end
      end
  | In_timer =>
      match bootstrap s with
      | None => Some s
      | Some bs =>
          if lcbio_timer_armed bs then
            match lcbio_timer_get_target bs with
            | tgt_initial_timeout =>
                Some (failed (timer_fired s bs)
                        (set_tm (mk_timer false (tm_target (tm bs))) bs)
                        LCB_ETIMEDOUT "Failed to bootstrap in time")
            | tgt_async_refresh =>
                on_new_config (timer_fired s bs)
                  (set_tm (mk_timer false (tm_target (tm bs))) bs)
                  (lcb_confmon_get_config s)
            end
          else Some s
      end
  | In_confmon cm => Some (set_confmon cm s)
  end.

(** ** First success and the provider-adjustment policy *)

Definition is_provider_call (c : call) : bool :=
  match c with
  | call_lcb_confmon_set_provider_active _ _ => true
  | _ => false
  end.

(** The calls that switch providers on or off, most recent first. *)
Definition provider_calls (s : lcb_st) : list call :=
  filter is_provider_call (trace s).

Definition is_cccp_disable (c : call) : bool :=
  match c with
  | call_lcb_confmon_set_provider_active LCB_CLCONFIG_CCCP enabled => enabled =? 0
  | _ => false
  end.

(** How many times the cluster-push provider was disabled since the
    current session registered its listener. *)
Fixpoint session_policy_runs (tr : list call) : nat :=
  match tr with
  | [] => 0%nat
  | call_lcb_confmon_add_listener :: _ => 0%nat
  | c :: tr' => ((if is_cccp_disable c then 1 else 0) + session_policy_runs tr')%nat
  end.

Definition policy_inv (s : lcb_st) : Prop :=
  match bootstrap s with
  | None => True
  | Some bs =>
      (bootstrapped bs = 0 /\ session_policy_runs (trace s) = 0%nat) \/
      (bootstrapped bs = 1 /\ (session_policy_runs (trace s) <= 1)%nat)
  end.

(** The calls [config_callback] makes on a new configuration, most recent
    first. *)
Definition new_config_calls (s : lcb_st) (bs : lcb_bootstrap_st)
    (info : option clconfig_info) : list call :=
  call_lcb_maybe_breakout
    :: (if bootstrapped bs =? 0
        then call_callbacks_bootstrap LCB_SUCCESS
               :: (if reverts_to_http (new_config_result s bs info)
                   then revert_calls else [])
               ++ [call_lcb_aspend_del]
        else [])
    ++ match type s, info with
       | LCB_TYPE_BUCKET, Some ci => [call_lcb_update_vbconfig ci]
       | _, _ => []
       end
    ++ [call_lcb_log LCB_LOG_DEBUG "Instance configured!"; call_lcbio_timer_disarm].

(** ** Listener target *)

(** The listener dispatches synchronously, to [config_callback]. *)
Definition is_sync (s : lcb_st) : bool :=
  match bootstrap s with
  | Some bs =>
      match listener_callback bs with
      | cb_config_callback => true
      | _ => false
      end
  | None => false
  end.

Definition is_initial (i : input) : bool :=
  match i with
  | In_bootstrap_initial _ _ => true
  | _ => false
  end.

(** Reading the trace from the most recent call backwards: an initial
    bootstrap was started ([lcb_aspend_add] is only called there) and no
    new configuration has been processed since ([config_callback] logs
    "Instance configured!" each time it processes one). *)
Fixpoint sync_window (tr : list call) : bool :=
  match tr with
  | [] => false
  | call_lcb_aspend_add :: _ => true
  | call_lcb_log LCB_LOG_DEBUG fmt :: tr' =>
      if String.eqb fmt "Instance configured!" then false else sync_window tr'
  | _ :: tr' => sync_window tr'
  end.

Definition sync_inv (s : lcb_st) : Prop :=
  is_sync s = true -> sync_window (trace s) = true.

(** ** Coalescing of deferred dispatches *)

Definition is_configured_log (c : call) : bool :=
  match c with
  | call_lcb_log LCB_LOG_DEBUG fmt => String.eqb fmt "Instance configured!"
  | _ => false
  end.

(** How many times [config_callback] processed a new configuration. *)
Definition configs_processed (s : lcb_st) : nat :=
  length (filter is_configured_log (trace s)).

(** The monitor announcing new configurations, one event per element. *)
Definition notify_new_configs (infos : list (option clconfig_info)) : list input :=
  map (In_notify CLCONFIG_EVENT_GOT_NEW_CONFIG) infos.

(** Whether the session of [s] has a deferred dispatch scheduled. *)
Definition has_pending_dispatch (s : lcb_st) : bool :=
  match bootstrap s with
  | Some bs => dispatch_pending bs
  | None => false
  end.

(** The instance after [n] events were dropped: one log line each. *)
Definition drops (n : nat) (s : lcb_st) : lcb_st :=
  set_trace (repeat dropped_log n ++ trace s) s.

(** ** Further observations *)

Definition is_error_callback (c : call) : bool :=
  match c with
  | call_callbacks_error _ _ => true
  | _ => false
  end.

(** The calls made to the user's callbacks, most recent first. *)
Definition is_user_callback (c : call) : bool :=
  is_bootstrap_callback c || is_error_callback c.

Definition user_callbacks (s : lcb_st) : list call :=
  filter is_user_callback (trace s).

Definition is_add_listener (c : call) : bool :=
  match c with
  | call_lcb_confmon_add_listener => true
  | _ => false
  end.

Definition is_remove_listener (c : call) : bool :=
  match c with
  | call_lcb_confmon_remove_listener => true
  | _ => false
  end.

Definition is_timer_new (c : call) : bool :=
  match c with
  | call_lcbio_timer_new _ => true
  | _ => false
  end.

Definition is_timer_destroy (c : call) : bool :=
  match c with
  | call_lcbio_timer_destroy => true
  | _ => false
  end.

(** How many calls of a kind were made so far. *)
Definition count_calls (f : call -> bool) (s : lcb_st) : nat :=
  length (filter f (trace s)).

(** Whether the timer of the session is armed; no session, no timer. *)
Definition timer_armed_in (s : lcb_st) : bool :=
  match bootstrap s with
  | Some bs => lcbio_timer_armed bs
  | None => false
  end.

(** 1 when a session exists, 0 otherwise. *)
Definition session_count (s : lcb_st) : nat :=
  match bootstrap s with
  | Some _ => 1%nat
  | None => 0%nat
  end.

(** The error counter is a valid [unsigned] and, unless zero, below the
    configured threshold. *)
Definition errcounter_inv (s : lcb_st) : Prop :=
  match bootstrap s with
  | None => True
  | Some bs =>
      0 <= errcounter bs < 2 ^ 32 /\
      (errcounter bs = 0 \/ errcounter bs < weird_things_threshold (settings s))
  end.

(** Listener registrations and timers are paired with their releases,
    counting from a starting instance [s0]. *)
Definition registration_inv (s0 s : lcb_st) : Prop :=
  (count_calls is_add_listener s + count_calls is_remove_listener s0
   = count_calls is_remove_listener s + count_calls is_add_listener s0
     + session_count s)%nat /\
  (count_calls is_timer_new s + count_calls is_timer_destroy s0
   = count_calls is_timer_destroy s + count_calls is_timer_new s0
     + session_count s)%nat.

(** Error signals, one call of [lcb_bootstrap_errcount_incr] per pair of
    clock readings. *)
Definition errcount_calls (nows : list (hrtime_t * hrtime_t)) : list input :=
  map (fun p => In_errcount_incr (fst p) (snd p)) nows.

(** Inputs that are neither a new configuration nor an initial bootstrap
    nor a destroy: what a session goes through while a background refresh
    finds nothing. *)
Definition quiet_input (i : input) : bool :=
  match i with
  | In_bootstrap_refresh _ _ => true
  | In_errcount_incr _ _ => true
  | In_get_status => true
  | In_timer => true
  | In_confmon _ => true
  | In_notify CLCONFIG_EVENT_GOT_NEW_CONFIG _ => false
  | In_notify _ _ => true
  | In_bootstrap_initial _ _ => false
  | In_destroy => false
  end.

(** The session is on the deferred target with its timer disarmed. *)
Definition idle_deferred (s : lcb_st) : bool :=
  match bootstrap s with
  | Some bs =>
      match listener_callback bs with
      | cb_async_step_callback => negb (lcbio_timer_armed bs)
      | _ => false
      end
  | None => false
  end.

(** The instance after [n] throttled calls in a row. *)
Definition throttled_n (n : nat) (s : lcb_st) (bs : lcb_bootstrap_st) : lcb_st :=
  set_trace (repeat throttle_log n ++ trace s)
    (set_bootstrap (Some (set_errcounter (errcounter bs + Z.of_nat n) bs)) s).

(** ** Example instances *)

Definition default_settings : lcb_settings :=
  mk_settings 5000000 3 1000000 0.

(** A fresh instance: no session, nothing pending, nothing configured. *)
Definition fresh_instance (ty : lcb_type_t) (cfg : lcb_settings) : lcb_st :=
  mk_instance None (mk_confmon false None LCB_SUCCESS false LCB_SUCCESS) cfg
    LCB_SUCCESS ty LCBVB_DIST_VBUCKET None None 0 [].

Definition cfg_cccp : clconfig_info :=
  mk_info LCB_CLCONFIG_CCCP (mk_vbc LCBVB_DIST_VBUCKET 1).

Definition cfg_ketama_http : clconfig_info :=
  mk_info LCB_CLCONFIG_HTTP (mk_vbc LCBVB_DIST_KETAMA 2).

(** A cluster-type instance whose management connection is up, with no
    configuration and no error recorded. *)
Definition cluster_connected : lcb_st :=
  mk_instance None (mk_confmon false None LCB_SUCCESS true LCB_SUCCESS)
    default_settings LCB_SUCCESS LCB_TYPE_CLUSTER LCBVB_DIST_VBUCKET None None 0 [].

(** An instance that failed to bootstrap in time and holds no
    configuration. *)
Definition timed_out_instance : lcb_st :=
  mk_instance None (mk_confmon false None LCB_SUCCESS true LCB_SUCCESS)
    default_settings LCB_ETIMEDOUT LCB_TYPE_CLUSTER LCBVB_DIST_VBUCKET None None 0 [].

(** A configured bucket whose last error is stale. *)
Definition configured_bucket : lcb_st :=
  mk_instance None (mk_confmon false (Some cfg_cccp) LCB_SUCCESS false LCB_SUCCESS)
    default_settings LCB_ETIMEDOUT LCB_TYPE_BUCKET LCBVB_DIST_VBUCKET
    (Some cfg_cccp) (Some (vbc cfg_cccp)) 0 [].

(** A session in the middle of an initial bootstrap: listener synchronous,
    timer armed for the initial timeout, monitor refreshing. *)
Definition bootstrapping_session : lcb_bootstrap_st :=
  mk_bs cb_config_callback (mk_timer true tgt_initial_timeout) 100 0 0.

Definition bootstrapping_instance : lcb_st :=
  mk_instance (Some bootstrapping_session)
    (mk_confmon true None LCB_SUCCESS false LCB_SUCCESS)
    default_settings LCB_SUCCESS LCB_TYPE_BUCKET LCBVB_DIST_VBUCKET None None 1 [].

(** A memcached-style bucket in the middle of its initial bootstrap. *)
Definition ketama_bootstrapping : lcb_st :=
  mk_instance (Some bootstrapping_session)
    (mk_confmon true (Some cfg_ketama_http) LCB_SUCCESS false LCB_SUCCESS)
    default_settings LCB_SUCCESS LCB_TYPE_BUCKET LCBVB_DIST_VBUCKET None None 1 [].

(** A session that refreshed at time 5000 (ns), counter at zero. *)
Definition steady_session : lcb_bootstrap_st :=
  mk_bs cb_async_step_callback (mk_timer false tgt_async_refresh) 5000 1 0.

Definition steady_instance : lcb_st :=
  mk_instance (Some steady_session)
    (mk_confmon false (Some cfg_cccp) LCB_SUCCESS false LCB_SUCCESS)
    default_settings LCB_SUCCESS LCB_TYPE_BUCKET LCBVB_DIST_VBUCKET
    (Some cfg_cccp) (Some (vbc cfg_cccp)) 0 [].

(** A session in steady state with a deferred dispatch already
    scheduled. *)
Definition pending_session : lcb_bootstrap_st :=
  mk_bs cb_async_step_callback (mk_timer true tgt_async_refresh) 5000 1 0.

Definition pending_instance : lcb_st :=
  set_bootstrap (Some pending_session) steady_instance.

(** A session created by a refresh at time 100 that went through two
    throttled error signals. *)
Definition twice_throttled_session : lcb_bootstrap_st :=
  mk_bs cb_async_step_callback (mk_timer false tgt_initial_timeout) 100 0 2.

Definition twice_throttled_instance : lcb_st :=
  set_trace [throttle_log; throttle_log; call_lcb_confmon_start;
             call_lcb_confmon_add_listener;
             call_lcbio_timer_new tgt_initial_timeout]
    (set_bootstrap (Some twice_throttled_session)
       (fresh_instance LCB_TYPE_BUCKET default_settings)).

(** An instance whose first session was destroyed during its initial
    bootstrap and that got a second session from a refresh. *)
Definition recreated_instance : lcb_st :=
  refreshed
    (session_created
       (destroyed
          (initial_started
             (session_created (prepared (fresh_instance LCB_TYPE_BUCKET default_settings)))
             calloc_bs 100)))
    calloc_bs 200.

(** ** Proof tactics *)

(** Unfolding of the monad and of the modelled collaborators. *)
Ltac unfold_m :=
  cbv beta iota delta
    [bind ret gets modify undefined exec get_bs modify_bs emit
     lcb_log callbacks_error callbacks_bootstrap lcb_maybe_breakout
     lcb_aspend_add lcb_aspend_del lcb_update_vbconfig LCBT_VBCONFIG
     lcb_confmon_is_refreshing lcb_confmon_last_error lcb_confmon_get_config
     lcb_confmon_get_rest_connection lcb_confmon_prepare
     lcb_confmon_add_listener lcb_confmon_remove_listener
     lcb_confmon_set_provider_active lcb_confmon_start
     lcbio_timer_new lcbio_timer_set_target lcbio_timer_rearm
     lcbio_async_signal lcbio_timer_disarm lcbio_timer_destroy
     lcbio_timer_armed lcbio_timer_get_target].

(** Reduction of record projections and field updates only. *)
Ltac simpl_rec :=
  cbn [bootstrap confmon settings last_error type dist_type cur_configinfo
       vbconfig pendops trace
       listener_callback tm last_refresh bootstrapped errcounter
       tm_armed tm_target
       cm_is_refreshing cm_config cm_last_error cm_rest_connection cm_start_status
       config_timeout weird_things_threshold weird_things_delay bc_http_stream_time
       set_bootstrap set_settings set_confmon set_last_error set_topology
       set_pendops set_trace set_listener_callback set_tm set_last_refresh
       set_bootstrapped set_errcounter set_bc_http_stream_time].

Ltac simpl_rec_in H :=
  cbn [bootstrap confmon settings last_error type dist_type cur_configinfo
       vbconfig pendops trace
       listener_callback tm last_refresh bootstrapped errcounter
       tm_armed tm_target
       cm_is_refreshing cm_config cm_last_error cm_rest_connection cm_start_status
       config_timeout weird_things_threshold weird_things_delay bc_http_stream_time
       set_bootstrap set_settings set_confmon set_last_error set_topology
       set_pendops set_trace set_listener_callback set_tm set_last_refresh
       set_bootstrapped set_errcounter set_bc_http_stream_time] in H.

(** Case analysis on a transition [E : next i s = Some s']: every test the
    transition makes is decided, and [s'] is replaced by the explicit
    result. *)
Ltac break_next E :=
  repeat match type of E with
    | context [match ?x with _ => _ end] =>
        let Hc := fresh "Hc" in destruct x eqn:Hc
    end;
  try discriminate E;
  try (injection E as E; rewrite <- E; clear E).

(** Unfolding of the explicit results of the transitions. *)
Ltac unfold_results :=
  unfold prepared, initial_started, refreshed, throttled, counter_reset,
    session_created, destroyed, failed, timer_fired, dispatch_scheduled,
    throttle_log, dropped_log.

(** * Properties *)

(** ** Status query *)

Section StatusQuery.

Variable s : lcb_st.

Lemma status_with_config :
  cur_configinfo s <> None -> lcb_get_bootstrap_status s = Some (LCB_SUCCESS, s).
Proof.
  intro Hc. unfold lcb_get_bootstrap_status; unfold_m.
  destruct (cur_configinfo s); [reflexivity | congruence].
Qed.

Lemma status_with_error :
  cur_configinfo s = None -> last_error s <> LCB_SUCCESS ->
  lcb_get_bootstrap_status s = Some (last_error s, s).
Proof.
  intros Hc He. unfold lcb_get_bootstrap_status; unfold_m. rewrite Hc.
  destruct (lcb_error_eq_dec (last_error s) LCB_SUCCESS); [contradiction | reflexivity].
Qed.

Lemma status_cluster_connected :
  cur_configinfo s = None -> last_error s = LCB_SUCCESS ->
  type s = LCB_TYPE_CLUSTER -> cm_rest_connection (confmon s) = true ->
  lcb_get_bootstrap_status s = Some (LCB_SUCCESS, s).
Proof.
  intros Hc He Ht Hr. unfold lcb_get_bootstrap_status; unfold_m.
  rewrite Hc, He, Ht, Hr. reflexivity.
Qed.

Lemma status_not_ready :
  cur_configinfo s = None -> last_error s = LCB_SUCCESS ->
  ~ (type s = LCB_TYPE_CLUSTER /\ cm_rest_connection (confmon s) = true) ->
  lcb_get_bootstrap_status s = Some (LCB_ERROR, s).
Proof.
  intros Hc He Hn. unfold lcb_get_bootstrap_status; unfold_m.
  rewrite Hc, He. simpl.
  destruct (lcb_type_eq_dec (type s) LCB_TYPE_CLUSTER) as [Ht | Ht]; [| reflexivity].
  destruct (cm_rest_connection (confmon s)) eqn:Hr; [| reflexivity].
  exfalso; apply Hn; split; [assumption | reflexivity].
Qed.

End StatusQuery.

(** C9: the status query answers success when the owner holds a
    configuration; otherwise the owner's last error when it is not success;
    otherwise success for a cluster-type instance with an established
    management connection; otherwise the generic error.  The four cases
    are tried in this order, and the instance is returned as it was
    found. *)
Theorem lcb_get_bootstrap_status_precedence :
  forall s : lcb_st,
    (cur_configinfo s <> None ->
     lcb_get_bootstrap_status s = Some (LCB_SUCCESS, s)) /\
    (cur_configinfo s = None -> last_error s <> LCB_SUCCESS ->
     lcb_get_bootstrap_status s = Some (last_error s, s)) /\
    (cur_configinfo s = None -> last_error s = LCB_SUCCESS ->
     type s = LCB_TYPE_CLUSTER -> cm_rest_connection (confmon s) = true ->
     lcb_get_bootstrap_status s = Some (LCB_SUCCESS, s)) /\
    (cur_configinfo s = None -> last_error s = LCB_SUCCESS ->
     ~ (type s = LCB_TYPE_CLUSTER /\ cm_rest_connection (confmon s) = true) ->
     lcb_get_bootstrap_status s = Some (LCB_ERROR, s)).
Proof.
  intro s. repeat split.
  - apply status_with_config.
  - apply status_with_error.
  - apply status_cluster_connected.
  - apply status_not_ready.
Qed.

Lemma lcb_get_bootstrap_status_precedence_witness :
  lcb_get_bootstrap_status configured_bucket = Some (LCB_SUCCESS, configured_bucket) /\
  lcb_get_bootstrap_status timed_out_instance = Some (LCB_ETIMEDOUT, timed_out_instance) /\
  lcb_get_bootstrap_status cluster_connected = Some (LCB_SUCCESS, cluster_connected) /\
  lcb_get_bootstrap_status (fresh_instance LCB_TYPE_BUCKET default_settings)
    = Some (LCB_ERROR, fresh_instance LCB_TYPE_BUCKET default_settings).
Proof.
  split; [| split; [| split]].
  - apply (proj1 (lcb_get_bootstrap_status_precedence configured_bucket)).
    discriminate.
  - apply (proj1 (proj2 (lcb_get_bootstrap_status_precedence timed_out_instance)));
      [reflexivity | discriminate].
  - apply (proj1 (proj2 (proj2 (lcb_get_bootstrap_status_precedence cluster_connected))));
      reflexivity.
  - apply (proj2 (proj2 (proj2 (lcb_get_bootstrap_status_precedence
                                  (fresh_instance LCB_TYPE_BUCKET default_settings)))));
      [reflexivity | reflexivity | intros [H _]; discriminate H].
Defined.

(** ** De-duplication and allocation failure in [bootstrap_common] *)

Section BootstrapCommon.

Variables (s : lcb_st) (now : hrtime_t).

Lemma bootstrap_common_refreshing (bs : lcb_bootstrap_st) (calloc_ok : bool) (initial : Z) :
  bootstrap s = Some bs -> lcb_confmon_is_refreshing s = true ->
  bootstrap_common now calloc_ok initial s = Some (LCB_SUCCESS, s).
Proof.
  intros Hb Hr. unfold bootstrap_common.
  unfold bind at 1. unfold gets at 1. rewrite Hb.
  unfold bind at 1. unfold gets at 1. rewrite Hr. reflexivity.
Qed.

Lemma bootstrap_common_enomem (initial : Z) :
  bootstrap s = None ->
  bootstrap_common now false initial s = Some (LCB_CLIENT_ENOMEM, s).
Proof.
  intros Hb. unfold bootstrap_common.
  unfold bind at 1. unfold gets at 1. rewrite Hb. reflexivity.
Qed.

End BootstrapCommon.

(** C5: with a session in place and the monitor already refreshing,
    [bootstrap_common] returns success and leaves the instance as it is, in
    either mode.  So does the refresh entry point; the initial entry point
    has called the monitor's prepare step before, and nothing else
    changes: session (timer, last refresh time, listener target), pending
    counter and the rest of the instance are untouched. *)
Theorem bootstrap_common_dedup :
  forall (s : lcb_st) (bs : lcb_bootstrap_st) (now : hrtime_t)
         (calloc_ok : bool) (initial : Z),
    bootstrap s = Some bs ->
    lcb_confmon_is_refreshing s = true ->
    bootstrap_common now calloc_ok initial s = Some (LCB_SUCCESS, s) /\
    lcb_bootstrap_refresh now calloc_ok s = Some (LCB_SUCCESS, s) /\
    lcb_bootstrap_initial now calloc_ok s = Some (LCB_SUCCESS, prepared s) /\
    bootstrap (prepared s) = Some bs /\
    pendops (prepared s) = pendops s.
Proof.
  intros s bs now calloc_ok initial Hb Hr.
  split; [| split; [| split; [| split]]].
  - apply bootstrap_common_refreshing with bs; assumption.
  - apply bootstrap_common_refreshing with bs; assumption.
  - unfold lcb_bootstrap_initial, lcb_confmon_prepare, emit, modify.
    unfold bind at 1. fold (prepared s).
    apply bootstrap_common_refreshing with bs; [exact Hb | exact Hr].
  - exact Hb.
  - reflexivity.
Qed.

Lemma bootstrap_common_dedup_witness :
  bootstrap_common 200 true 1 bootstrapping_instance
    = Some (LCB_SUCCESS, bootstrapping_instance) /\
  lcb_bootstrap_refresh 200 true bootstrapping_instance
    = Some (LCB_SUCCESS, bootstrapping_instance).
Proof.
  destruct (bootstrap_common_dedup bootstrapping_instance bootstrapping_session
              200 true 1 eq_refl eq_refl) as (H1 & H2 & _).
  split; [exact H1 | exact H2].
Defined.

(** C6, as first stated, fails for the initial entry point: with the
    allocation failing on a fresh instance, [lcb_bootstrap_initial] reports
    the out-of-memory error after it has already called the monitor's
    prepare step. *)
Lemma bootstrap_initial_enomem_touches_confmon :
  lcb_bootstrap_initial 0 false (fresh_instance LCB_TYPE_BUCKET default_settings)
    = Some (LCB_CLIENT_ENOMEM,
            prepared (fresh_instance LCB_TYPE_BUCKET default_settings)) /\
  confmon_calls (prepared (fresh_instance LCB_TYPE_BUCKET default_settings))
    = [call_lcb_confmon_prepare] /\
  confmon_calls (prepared (fresh_instance LCB_TYPE_BUCKET default_settings))
    <> confmon_calls (fresh_instance LCB_TYPE_BUCKET default_settings).
Proof.
  split; [reflexivity |]. split; [reflexivity | discriminate].
Qed.

(** C6, amended: when the session allocation fails, [bootstrap_common]
    and the refresh entry point return the out-of-memory error and leave the
    instance exactly as it was; the initial entry point returns the same
    error, and the only thing that happened is the monitor's prepare step,
    which it runs before the allocation.  In every case no listener is
    registered, the monitor is not started, and no session, timer or
    pending-operation state is created or changed. *)
Theorem bootstrap_enomem_effects :
  forall (s : lcb_st) (now : hrtime_t) (initial : Z),
    bootstrap s = None ->
    bootstrap_common now false initial s = Some (LCB_CLIENT_ENOMEM, s) /\
    lcb_bootstrap_refresh now false s = Some (LCB_CLIENT_ENOMEM, s) /\
    lcb_bootstrap_initial now false s = Some (LCB_CLIENT_ENOMEM, prepared s) /\
    confmon_calls (prepared s) = call_lcb_confmon_prepare :: confmon_calls s /\
    bootstrap (prepared s) = None /\
    pendops (prepared s) = pendops s.
Proof.
  intros s now initial Hb.
  split; [| split; [| split; [| split; [| split]]]].
  - apply bootstrap_common_enomem; exact Hb.
  - apply bootstrap_common_enomem; exact Hb.
  - unfold lcb_bootstrap_initial, lcb_confmon_prepare, emit, modify.
    unfold bind at 1. fold (prepared s).
    apply bootstrap_common_enomem. exact Hb.
  - reflexivity.
  - exact Hb.
  - reflexivity.
Qed.

Lemma bootstrap_enomem_effects_witness :
  lcb_bootstrap_refresh 0 false (fresh_instance LCB_TYPE_BUCKET default_settings)
    = Some (LCB_CLIENT_ENOMEM, fresh_instance LCB_TYPE_BUCKET default_settings) /\
  lcb_bootstrap_initial 0 false (fresh_instance LCB_TYPE_BUCKET default_settings)
    = Some (LCB_CLIENT_ENOMEM, prepared (fresh_instance LCB_TYPE_BUCKET default_settings)).
Proof.
  destruct (bootstrap_enomem_effects (fresh_instance LCB_TYPE_BUCKET default_settings)
              0 0 eq_refl) as (_ & H2 & H3 & _).
  split; [exact H2 | exact H3].
Defined.

(** ** The failure path *)

Lemma initial_bootstrap_error_run (s : lcb_st) (bs : lcb_bootstrap_st)
    (err : lcb_error_t) (errinfo : string) :
  bootstrap s = Some bs ->
  initial_bootstrap_error err errinfo s = Some (tt, failed s bs err errinfo).
Proof.
  intros Hb. destruct s as [b cm cfg le ty dt ci vb po tr]. simpl in Hb. subst b.
  unfold initial_bootstrap_error, failed, reported_error; unfold_m; simpl.
  destruct (lcb_error_eq_dec (cm_last_error cm) LCB_SUCCESS); reflexivity.
Qed.

Lemma initial_bootstrap_error_no_session (s : lcb_st) (err : lcb_error_t)
    (errinfo : string) :
  bootstrap s = None -> initial_bootstrap_error err errinfo s = None.
Proof.
  intros Hb. destruct s as [b cm cfg le ty dt ci vb po tr]. simpl in Hb. subst b.
  unfold initial_bootstrap_error; unfold_m; simpl.
  destruct (lcb_error_eq_dec (cm_last_error cm) LCB_SUCCESS); reflexivity.
Qed.

(** C7: on a providers-exhausted event the configuration-event handler
    runs the failure path with the reason "No more bootstrap providers
    remain" when the owner has no topology (the error callback and the
    completion callback receive the reported error, the timer is disarmed,
    the pending counter goes down by one), and does nothing at all when
    the owner has one. *)
Theorem config_callback_providers_cycled :
  forall (s : lcb_st) (bs : lcb_bootstrap_st) (info : option clconfig_info),
    bootstrap s = Some bs ->
    (LCBT_VBCONFIG s = None ->
     config_callback CLCONFIG_EVENT_PROVIDERS_CYCLED info s
       = initial_bootstrap_error LCB_ERROR "No more bootstrap providers remain" s /\
     config_callback CLCONFIG_EVENT_PROVIDERS_CYCLED info s
       = Some (tt, failed s bs LCB_ERROR "No more bootstrap providers remain")) /\
    (LCBT_VBCONFIG s <> None ->
     config_callback CLCONFIG_EVENT_PROVIDERS_CYCLED info s = Some (tt, s)).
Proof.
  intros s bs info Hb.
  assert (Hcb : config_callback CLCONFIG_EVENT_PROVIDERS_CYCLED info s
                = match LCBT_VBCONFIG s with
                  | None => initial_bootstrap_error LCB_ERROR
                              "No more bootstrap providers remain" s
                  | Some _ => Some (tt, s)
                  end).
  { unfold config_callback. unfold bind at 1. unfold get_bs. rewrite Hb.
    simpl. unfold bind at 1. unfold gets.
    destruct (LCBT_VBCONFIG s); reflexivity. }
  split.
  - intros Hv. rewrite Hcb, Hv. split; [reflexivity |].
    apply initial_bootstrap_error_run. exact Hb.
  - intros Hv. rewrite Hcb. destruct (LCBT_VBCONFIG s); [reflexivity | congruence].
Qed.

Lemma config_callback_providers_cycled_witness :
  config_callback CLCONFIG_EVENT_PROVIDERS_CYCLED None bootstrapping_instance
    = Some (tt, failed bootstrapping_instance bootstrapping_session LCB_ERROR
                  "No more bootstrap providers remain") /\
  config_callback CLCONFIG_EVENT_PROVIDERS_CYCLED None
      (set_topology LCBVB_DIST_VBUCKET (Some cfg_cccp) (Some (vbc cfg_cccp))
         bootstrapping_instance)
    = Some (tt, set_topology LCBVB_DIST_VBUCKET (Some cfg_cccp) (Some (vbc cfg_cccp))
                  bootstrapping_instance).
Proof.
  split.
  - apply (proj1 (config_callback_providers_cycled bootstrapping_instance
                    bootstrapping_session None eq_refl)).
    reflexivity.
  - apply (proj2 (config_callback_providers_cycled
                    (set_topology LCBVB_DIST_VBUCKET (Some cfg_cccp) (Some (vbc cfg_cccp))
                       bootstrapping_instance)
                    bootstrapping_session None eq_refl)).
    discriminate.
Defined.

(** ** Error-driven throttled refresh *)

Lemma lcb_bootstrap_errcount_incr_eq (s : lcb_st) (bs : lcb_bootstrap_st)
    (now now' : hrtime_t) :
  bootstrap s = Some bs ->
  lcb_bootstrap_errcount_incr now now' s =
    if suppressed s bs now then Some (tt, throttled s bs)
    else (_ <- lcb_bootstrap_refresh now' false ;; ret tt) (counter_reset s bs).
Proof.
  intros Hb. destruct s as [b cm cfg le ty dt ci vb po tr]. simpl in Hb. subst b.
  unfold lcb_bootstrap_errcount_incr, suppressed, throttled, counter_reset,
    next_refresh_time.
  unfold_m. simpl_rec.
  destruct ((now <? (last_refresh bs + LCB_US2NS (weird_things_delay cfg)) mod 2 ^ 64)
            && (errcounter_incr (errcounter bs) <? weird_things_threshold cfg)).
  - reflexivity.
  - reflexivity.
Qed.

Lemma lcb_bootstrap_refresh_session (s : lcb_st) (bs : lcb_bootstrap_st)
    (now : hrtime_t) (calloc_ok : bool) :
  bootstrap s = Some bs ->
  lcb_bootstrap_refresh now calloc_ok s =
    if lcb_confmon_is_refreshing s then Some (LCB_SUCCESS, s)
    else Some (cm_start_status (confmon s), refreshed s bs now).
Proof.
  intros Hb. destruct s as [b cm cfg le ty dt ci vb po tr]. simpl in Hb. subst b.
  unfold lcb_bootstrap_refresh, bootstrap_common, refreshed, lcb_confmon_is_refreshing.
  unfold_m. simpl. destruct (cm_is_refreshing cm); reflexivity.
Qed.

Lemma next_refresh_time_no_overflow (s : lcb_st) (bs : lcb_bootstrap_st) :
  0 <= last_refresh bs + LCB_US2NS (weird_things_delay (settings s)) < 2 ^ 64 ->
  next_refresh_time s bs = last_refresh bs + LCB_US2NS (weird_things_delay (settings s)).
Proof. intros H. unfold next_refresh_time. apply Z.mod_small. exact H. Qed.

Lemma errcounter_incr_no_overflow (c : Z) :
  0 <= c -> c + 1 < 2 ^ 32 -> errcounter_incr c = c + 1.
Proof. intros H0 H1. unfold errcounter_incr. apply Z.mod_small. lia. Qed.

Lemma suppressed_true_iff (s : lcb_st) (bs : lcb_bootstrap_st) (now : hrtime_t) :
  suppressed s bs now = true <->
  now < next_refresh_time s bs /\
  errcounter_incr (errcounter bs) < weird_things_threshold (settings s).
Proof.
  unfold suppressed. rewrite andb_true_iff, !Z.ltb_lt. reflexivity.
Qed.

(** C2: on a live session [lcb_bootstrap_errcount_incr] increments the
    error counter (an unsigned: modulo 2^32).  If the call comes before
    last refresh time plus configured delay and the incremented counter is
    below the threshold, no refresh is requested and only the counter
    changes (and the suppression is logged); otherwise the counter is reset
    to zero and a refresh-mode bootstrap runs on that state.  Scenario:
    with threshold 3 and delay 1000 ms, counter at zero after a refresh,
    two calls inside the window make no call to the monitor and a third
    one resets the counter and runs the refresh exactly once. *)
Theorem lcb_bootstrap_errcount_incr_throttle :
  (forall (s : lcb_st) (bs : lcb_bootstrap_st) (now now' : hrtime_t),
     bootstrap s = Some bs ->
     (now < next_refresh_time s bs /\
      errcounter_incr (errcounter bs) < weird_things_threshold (settings s) ->
      lcb_bootstrap_errcount_incr now now' s = Some (tt, throttled s bs)) /\
     (~ (now < next_refresh_time s bs /\
         errcounter_incr (errcounter bs) < weird_things_threshold (settings s)) ->
      lcb_bootstrap_errcount_incr now now' s
        = (_ <- lcb_bootstrap_refresh now' false ;; ret tt) (counter_reset s bs)) /\
     (0 <= last_refresh bs + LCB_US2NS (weird_things_delay (settings s)) < 2 ^ 64 ->
      next_refresh_time s bs
        = last_refresh bs + LCB_US2NS (weird_things_delay (settings s))) /\
     (0 <= errcounter bs -> errcounter bs + 1 < 2 ^ 32 ->
      errcounter_incr (errcounter bs) = errcounter bs + 1)) /\
  (forall (s : lcb_st) (bs : lcb_bootstrap_st) (now1 now2 now3 now' : hrtime_t),
     bootstrap s = Some bs ->
     errcounter bs = 0 ->
     weird_things_threshold (settings s) = 3 ->
     weird_things_delay (settings s) = 1000 * 1000 ->
     0 <= last_refresh bs ->
     last_refresh bs + 1000 * 1000 * 1000 < 2 ^ 64 ->
     now1 < last_refresh bs + 1000 * 1000 * 1000 ->
     now2 < last_refresh bs + 1000 * 1000 * 1000 ->
     now3 < last_refresh bs + 1000 * 1000 * 1000 ->
     let s1 := set_trace (throttle_log :: trace s)
                 (set_bootstrap (Some (set_errcounter 1 bs)) s) in
     let s2 := set_trace (throttle_log :: throttle_log :: trace s)
                 (set_bootstrap (Some (set_errcounter 2 bs)) s) in
     let s3 := third_call_state s2 (set_errcounter 2 bs) now' in
     lcb_bootstrap_errcount_incr now1 now' s = Some (tt, s1) /\
     lcb_bootstrap_errcount_incr now2 now' s1 = Some (tt, s2) /\
     confmon_calls s2 = confmon_calls s /\
     lcb_bootstrap_errcount_incr now3 now' s2
       = (_ <- lcb_bootstrap_refresh now' false ;; ret tt)
           (counter_reset s2 (set_errcounter 2 bs)) /\
     lcb_bootstrap_errcount_incr now3 now' s2 = Some (tt, s3) /\
     option_map errcounter (bootstrap s3) = Some 0 /\
     confmon_calls s3
       = if lcb_confmon_is_refreshing s then confmon_calls s
         else call_lcb_confmon_start :: confmon_calls s).
Proof.
  split.
  - intros s bs now now' Hb.
    pose proof (lcb_bootstrap_errcount_incr_eq s bs now now' Hb) as E.
    split; [| split; [| split]].
    + intros H. apply suppressed_true_iff in H. rewrite E, H. reflexivity.
    + intros H. rewrite E.
      destruct (suppressed s bs now) eqn:Hs; [| reflexivity].
      apply suppressed_true_iff in Hs. contradiction.
    + apply next_refresh_time_no_overflow.
    + apply errcounter_incr_no_overflow.
  - intros s bs now1 now2 now3 now' Hb Hc Hthr Hdelay Hlr0 Hlr H1 H2 H3.
    destruct s as [b cm cfg le ty dt ci vb po tr].
    cbn [bootstrap settings] in Hb, Hthr, Hdelay. subst b.
    destruct bs as [cb t lr bt ec].
    cbn [last_refresh errcounter] in Hc, Hlr0, Hlr, H1, H2, H3. subst ec.
    assert (Hlt : forall now, now < lr + 1000 * 1000 * 1000 ->
              (now <? (lr + LCB_US2NS (1000 * 1000)) mod 2 ^ 64) = true).
    { intros now Hnow. apply Z.ltb_lt. unfold LCB_US2NS.
      rewrite Z.mod_small; lia. }
    intros s1 s2 s3.
    assert (E1 : lcb_bootstrap_errcount_incr now1 now'
                   (mk_instance (Some (mk_bs cb t lr bt 0)) cm cfg le ty dt ci vb po tr)
                 = Some (tt, s1)).
    { rewrite lcb_bootstrap_errcount_incr_eq with (bs := mk_bs cb t lr bt 0)
        by reflexivity.
      unfold suppressed, next_refresh_time. simpl_rec.
      rewrite Hthr, Hdelay, (Hlt now1 H1). reflexivity. }
    assert (E2 : lcb_bootstrap_errcount_incr now2 now' s1 = Some (tt, s2)).
    { unfold s1. simpl_rec.
      rewrite lcb_bootstrap_errcount_incr_eq with (bs := mk_bs cb t lr bt 1)
        by reflexivity.
      unfold suppressed, next_refresh_time. simpl_rec.
      rewrite Hthr, Hdelay, (Hlt now2 H2). reflexivity. }
    assert (E3 : lcb_bootstrap_errcount_incr now3 now' s2
                 = (_ <- lcb_bootstrap_refresh now' false ;; ret tt)
                     (counter_reset s2 (mk_bs cb t lr bt 2))).
    { unfold s2. simpl_rec.
      rewrite lcb_bootstrap_errcount_incr_eq with (bs := mk_bs cb t lr bt 2)
        by reflexivity.
      unfold suppressed, next_refresh_time. simpl_rec.
      rewrite Hthr, Hdelay, (Hlt now3 H3). reflexivity. }
    split; [exact E1 |]. split; [exact E2 |]. split; [reflexivity |].
    split; [exact E3 |].
    assert (E4 : lcb_bootstrap_errcount_incr now3 now' s2 = Some (tt, s3)).
    { rewrite E3. unfold bind.
      rewrite lcb_bootstrap_refresh_session with (bs := mk_bs cb t lr bt 0)
        by reflexivity.
      unfold s3, third_call_state, s2, counter_reset, lcb_confmon_is_refreshing.
      simpl_rec. destruct (cm_is_refreshing cm); reflexivity. }
    split; [exact E4 |].
    unfold s3, third_call_state, s2, lcb_confmon_is_refreshing. simpl_rec.
    destruct (cm_is_refreshing cm); split; reflexivity.
Qed.

Lemma lcb_bootstrap_errcount_incr_throttle_witness :
  lcb_bootstrap_errcount_incr 6000 6001 steady_instance
    = Some (tt, throttled steady_instance steady_session) /\
  lcb_bootstrap_errcount_incr (5000 + 1000 * 1000 * 1000) 7 steady_instance
    = (_ <- lcb_bootstrap_refresh 7 false ;; ret tt)
        (counter_reset steady_instance steady_session) /\
  option_map errcounter
    (bootstrap
       (third_call_state
          (set_trace (throttle_log :: throttle_log :: trace steady_instance)
             (set_bootstrap (Some (set_errcounter 2 steady_session)) steady_instance))
          (set_errcounter 2 steady_session) 9000)) = Some 0.
Proof.
  destruct lcb_bootstrap_errcount_incr_throttle as [Hgen Hscen].
  split; [| split].
  - apply (proj1 (Hgen steady_instance steady_session 6000 6001 eq_refl)).
    split; reflexivity.
  - apply (proj1 (proj2 (Hgen steady_instance steady_session
                           (5000 + 1000 * 1000 * 1000) 7 eq_refl))).
    intros [H _]. vm_compute in H. discriminate H.
  - apply (Hscen steady_instance steady_session 6000 7000 8000 9000);
      try reflexivity; discriminate.
Defined.

(** ** Which entry points need a session *)

Lemma lcb_get_bootstrap_status_defined (s : lcb_st) :
  exists r : lcb_error_t, lcb_get_bootstrap_status s = Some (r, s).
Proof.
  unfold lcb_get_bootstrap_status; unfold_m.
  destruct (cur_configinfo s); [eexists; reflexivity |].
  destruct (lcb_error_eq_dec (last_error s) LCB_SUCCESS); [| eexists; reflexivity].
  destruct (lcb_type_eq_dec (type s) LCB_TYPE_CLUSTER); [| eexists; reflexivity].
  destruct (cm_rest_connection (confmon s)); eexists; reflexivity.
Qed.

Lemma bootstrap_common_start_defined (s : lcb_st) (bs : lcb_bootstrap_st)
    (now : hrtime_t) (initial : Z) :
  bootstrap s = Some bs ->
  exists (r : lcb_error_t) (s' : lcb_st),
    bootstrap_common_start now initial s = Some (r, s') /\ bootstrap s' <> None.
Proof.
  intros Hb. destruct s as [b cm cfg le ty dt ci vb po tr].
  cbn [bootstrap] in Hb. subst b.
  unfold bootstrap_common_start; unfold_m; simpl_rec.
  destruct (negb (initial =? 0)); simpl_rec;
    eexists; eexists; (split; [reflexivity | discriminate]).
Qed.

Lemma bootstrap_common_defined (s : lcb_st) (now : hrtime_t) (calloc_ok : bool)
    (initial : Z) :
  exists (r : lcb_error_t) (s' : lcb_st),
    bootstrap_common now calloc_ok initial s = Some (r, s') /\
    (r = LCB_SUCCESS -> bootstrap s' <> None).
Proof.
  unfold bootstrap_common. unfold bind at 1. unfold gets at 1.
  destruct (bootstrap s) as [bs |] eqn:Hb.
  - unfold bind at 1. unfold gets at 1.
    destruct (lcb_confmon_is_refreshing s).
    + exists LCB_SUCCESS, s. split; [reflexivity | congruence].
    + destruct (bootstrap_common_start_defined s bs now initial Hb) as (r & s' & E & Hs).
      exists r, s'. split; [exact E | intros _; exact Hs].
  - destruct calloc_ok.
    + destruct (bootstrap_common_start_defined
                  (set_trace (call_lcb_confmon_add_listener
                                :: call_lcbio_timer_new tgt_initial_timeout :: trace s)
                     (set_bootstrap (Some calloc_bs) s))
                  calloc_bs now initial eq_refl) as (r & s' & E & Hs).
      exists r, s'. split; [| intros _; exact Hs].
      rewrite <- E. destruct s; reflexivity.
    + exists LCB_CLIENT_ENOMEM, s. split; [reflexivity | discriminate].
Qed.

(** C10: [lcb_bootstrap_errcount_incr] dereferences the session pointer
    unchecked: without a session it is undefined, with one it is defined
    and the session is still there afterwards.  A session exists after a
    bootstrap or refresh call that returned success and no longer after
    destroy.  The other entry points (initial bootstrap, refresh, destroy,
    status query) are defined on every instance, with or without a session;
    without one, destroy and the status query change nothing. *)
Theorem lcb_bootstrap_errcount_incr_needs_session :
  forall (s : lcb_st) (now now' : hrtime_t) (calloc_ok : bool),
    (bootstrap s = None -> lcb_bootstrap_errcount_incr now now' s = None) /\
    (bootstrap s <> None ->
     exists s' : lcb_st,
       lcb_bootstrap_errcount_incr now now' s = Some (tt, s') /\ bootstrap s' <> None) /\
    (exists (r : lcb_error_t) (s' : lcb_st),
       lcb_bootstrap_initial now calloc_ok s = Some (r, s') /\
       (r = LCB_SUCCESS -> bootstrap s' <> None)) /\
    (exists (r : lcb_error_t) (s' : lcb_st),
       lcb_bootstrap_refresh now calloc_ok s = Some (r, s') /\
       (r = LCB_SUCCESS -> bootstrap s' <> None)) /\
    (exists s' : lcb_st,
       lcb_bootstrap_destroy s = Some (tt, s') /\ bootstrap s' = None /\
       (bootstrap s = None -> s' = s)) /\
    (exists r : lcb_error_t, lcb_get_bootstrap_status s = Some (r, s)).
Proof.
  intros s now now' calloc_ok.
  split; [| split; [| split; [| split; [| split]]]].
  - intros Hb. destruct s as [b cm cfg le ty dt ci vb po tr].
    cbn [bootstrap] in Hb. subst b. reflexivity.
  - intros Hb. destruct (bootstrap s) as [bs |] eqn:Hbs; [| congruence].
    rewrite (lcb_bootstrap_errcount_incr_eq s bs now now' Hbs).
    destruct (suppressed s bs now).
    + eexists. split; [reflexivity | discriminate].
    + unfold bind.
      rewrite lcb_bootstrap_refresh_session with (bs := set_errcounter 0 bs)
        by reflexivity.
      destruct (lcb_confmon_is_refreshing (counter_reset s bs));
        (eexists; split; [reflexivity | discriminate]).
  - unfold lcb_bootstrap_initial, lcb_confmon_prepare, emit, modify.
    unfold bind at 1. apply bootstrap_common_defined.
  - apply bootstrap_common_defined.
  - unfold lcb_bootstrap_destroy. unfold bind at 1. unfold gets at 1.
    destruct (bootstrap s) as [bs |] eqn:Hbs.
    + eexists. split; [reflexivity |]. split; [reflexivity | discriminate].
    + exists s. split; [reflexivity |]. split; [exact Hbs | reflexivity].
  - apply lcb_get_bootstrap_status_defined.
Qed.

Lemma lcb_bootstrap_errcount_incr_needs_session_witness :
  lcb_bootstrap_errcount_incr 1 2 (fresh_instance LCB_TYPE_BUCKET default_settings) = None /\
  exists s' : lcb_st,
    lcb_bootstrap_errcount_incr 6000 6001 steady_instance = Some (tt, s') /\
    bootstrap s' <> None.
Proof.
  split.
  - apply (proj1 (lcb_bootstrap_errcount_incr_needs_session
                    (fresh_instance LCB_TYPE_BUCKET default_settings) 1 2 true)).
    reflexivity.
  - apply (proj1 (proj2 (lcb_bootstrap_errcount_incr_needs_session
                           steady_instance 6000 6001 true))).
    discriminate.
Defined.

(** ** The success path *)

Lemma config_callback_new_config (s : lcb_st) (bs : lcb_bootstrap_st)
    (info : option clconfig_info) :
  bootstrap s = Some bs ->
  type s = LCB_TYPE_CLUSTER \/ info <> None ->
  config_callback CLCONFIG_EVENT_GOT_NEW_CONFIG info s
    = Some (tt, new_config_result s bs info).
Proof.
  intros Hb Hdef. destruct s as [b cm cfg le ty dt ci vb po tr].
  cbn [bootstrap type] in Hb, Hdef. subst b.
  destruct bs as [cb t lr bt ec].
  destruct ty.
  - destruct info as [[o [d id]] |]; [| destruct Hdef; congruence].
    destruct bt; [| vm_compute; reflexivity | vm_compute; reflexivity].
    destruct d; [vm_compute; reflexivity |].
    destruct o; vm_compute; reflexivity.
  - destruct info; destruct bt; vm_compute; reflexivity.
Qed.

Lemma config_callback_null_config (s : lcb_st) (bs : lcb_bootstrap_st) :
  bootstrap s = Some bs -> type s = LCB_TYPE_BUCKET ->
  config_callback CLCONFIG_EVENT_GOT_NEW_CONFIG None s = None.
Proof.
  intros Hb Ht. destruct s as [b cm cfg le ty dt ci vb po tr].
  cbn [bootstrap type] in Hb, Ht. subst b ty. reflexivity.
Qed.

Lemma config_callback_no_session (s : lcb_st) (event : clconfig_event_t)
    (info : option clconfig_info) :
  bootstrap s = None -> config_callback event info s = None.
Proof.
  intros Hb. unfold config_callback. unfold bind at 1. unfold get_bs.
  rewrite Hb. reflexivity.
Qed.

(** ** Explicit results of the remaining functions *)

Lemma bootstrap_common_start_eq (s : lcb_st) (bs : lcb_bootstrap_st)
    (now : hrtime_t) (initial : Z) :
  bootstrap s = Some bs ->
  bootstrap_common_start now initial s =
    Some (cm_start_status (confmon s),
          if initial =? 0 then refreshed s bs now else initial_started s bs now).
Proof.
  intros Hb. destruct s as [b cm cfg le ty dt ci vb po tr].
  cbn [bootstrap] in Hb. subst b.
  unfold bootstrap_common_start. destruct (initial =? 0); reflexivity.
Qed.

Lemma bootstrap_common_eq (s : lcb_st) (now : hrtime_t) (calloc_ok : bool)
    (initial : Z) :
  bootstrap_common now calloc_ok initial s =
    match bootstrap s with
    | Some bs =>
        if lcb_confmon_is_refreshing s then Some (LCB_SUCCESS, s)
        else Some (cm_start_status (confmon s),
                   if initial =? 0 then refreshed s bs now
                   else initial_started s bs now)
    | None =>
        if calloc_ok
        then Some (cm_start_status (confmon s),
                   if initial =? 0 then refreshed (session_created s) calloc_bs now
                   else initial_started (session_created s) calloc_bs now)
        else Some (LCB_CLIENT_ENOMEM, s)
    end.
Proof.
  unfold bootstrap_common. unfold bind at 1. unfold gets at 1.
  destruct (bootstrap s) as [bs |] eqn:Hb.
  - unfold bind at 1. unfold gets at 1.
    destruct (lcb_confmon_is_refreshing s); [reflexivity |].
    apply bootstrap_common_start_eq. exact Hb.
  - destruct calloc_ok; [| reflexivity].
    transitivity (bootstrap_common_start now initial (session_created s)).
    + destruct s; reflexivity.
    + rewrite (bootstrap_common_start_eq (session_created s) calloc_bs now initial eq_refl).
      reflexivity.
Qed.

Lemma async_step_callback_eq (s : lcb_st) (bs : lcb_bootstrap_st)
    (info : option clconfig_info) :
  bootstrap s = Some bs ->
  async_step_callback CLCONFIG_EVENT_GOT_NEW_CONFIG info s =
    Some (tt, if dispatch_pending bs
              then set_trace (dropped_log :: trace s) s
              else dispatch_scheduled s bs).
Proof.
  intros Hb. destruct s as [b cm cfg le ty dt ci vb po tr].
  cbn [bootstrap] in Hb. subst b.
  destruct bs as [cb [armed tgt] lr bt ec].
  destruct armed, tgt; reflexivity.
Qed.

Lemma async_step_callback_other (s : lcb_st) (event : clconfig_event_t)
    (info : option clconfig_info) :
  event <> CLCONFIG_EVENT_GOT_NEW_CONFIG ->
  async_step_callback event info s = Some (tt, s).
Proof.
  intros He. destruct event; [congruence | reflexivity | reflexivity | reflexivity].
Qed.

Lemma config_callback_other (s : lcb_st) (bs : lcb_bootstrap_st)
    (event : clconfig_event_t) (info : option clconfig_info) :
  bootstrap s = Some bs ->
  event <> CLCONFIG_EVENT_GOT_NEW_CONFIG ->
  event <> CLCONFIG_EVENT_PROVIDERS_CYCLED ->
  config_callback event info s = Some (tt, s).
Proof.
  intros Hb H1 H2. unfold config_callback. unfold bind at 1. unfold get_bs.
  rewrite Hb. destruct event; [congruence | reflexivity | congruence | reflexivity].
Qed.

Lemma config_callback_cycled (s : lcb_st) (bs : lcb_bootstrap_st)
    (info : option clconfig_info) :
  bootstrap s = Some bs ->
  config_callback CLCONFIG_EVENT_PROVIDERS_CYCLED info s =
    Some (tt, match LCBT_VBCONFIG s with
              | None => failed s bs LCB_ERROR "No more bootstrap providers remain"
              | Some _ => s
              end).
Proof.
  intros Hb. unfold config_callback. unfold bind at 1. unfold get_bs.
  rewrite Hb. cbn beta iota. unfold bind at 1. unfold gets.
  cbn [clconfig_event_eq_dec]. 
  change (match LCBT_VBCONFIG s with
          | Some _ => ret tt
          | None => initial_bootstrap_error LCB_ERROR "No more bootstrap providers remain"
          end s
          = Some (tt, match LCBT_VBCONFIG s with
                      | None => failed s bs LCB_ERROR "No more bootstrap providers remain"
                      | Some _ => s
                      end)).
  destruct (LCBT_VBCONFIG s); [reflexivity |].
  apply initial_bootstrap_error_run. exact Hb.
Qed.

Lemma timer_fire_eq (s : lcb_st) (bs : lcb_bootstrap_st) :
  bootstrap s = Some bs ->
  timer_fire s =
    if lcbio_timer_armed bs then
      match lcbio_timer_get_target bs with
      | tgt_initial_timeout =>
          Some (tt, failed (timer_fired s bs)
                      (set_tm (mk_timer false (tm_target (tm bs))) bs)
                      LCB_ETIMEDOUT "Failed to bootstrap in time")
      | tgt_async_refresh =>
          config_callback CLCONFIG_EVENT_GOT_NEW_CONFIG (lcb_confmon_get_config s)
            (timer_fired s bs)
      end
    else Some (tt, s).
Proof.
  intros Hb. unfold timer_fire. unfold bind at 1. unfold gets at 1. rewrite Hb.
  destruct (lcbio_timer_armed bs); [| reflexivity].
  unfold bind at 1. unfold modify_bs, get_bs, bind at 1. rewrite Hb.
  unfold modify. fold (timer_fired s bs).
  destruct (lcbio_timer_get_target bs).
  - unfold initial_timeout, bind at 1, get_bs. cbn [timer_fired set_bootstrap bootstrap].
    apply initial_bootstrap_error_run. reflexivity.
  - unfold async_refresh, bind at 1, get_bs. cbn [timer_fired set_bootstrap bootstrap].
    unfold bind at 1. unfold gets. destruct s; reflexivity.
Qed.

Lemma timer_fire_no_session (s : lcb_st) :
  bootstrap s = None -> timer_fire s = Some (tt, s).
Proof.
  intros Hb. unfold timer_fire. unfold bind at 1. unfold gets at 1.
  rewrite Hb. reflexivity.
Qed.

(** ** The transition function in explicit form *)

Lemma exec_config_callback_new_config (s : lcb_st) (bs : lcb_bootstrap_st)
    (info : option clconfig_info) :
  bootstrap s = Some bs ->
  exec (config_callback CLCONFIG_EVENT_GOT_NEW_CONFIG info) s = on_new_config s bs info.
Proof.
  intros Hb. unfold exec, on_new_config.
  destruct (type s) eqn:Ht.
  - destruct info as [ci |].
    + rewrite (config_callback_new_config s bs (Some ci) Hb); [reflexivity |].
      right; discriminate.
    + rewrite (config_callback_null_config s bs Hb Ht). reflexivity.
  - rewrite (config_callback_new_config s bs info Hb); [reflexivity |].
    left; exact Ht.
Qed.

Lemma exec_step (i : input) (s : lcb_st) : exec (step i) s = next i s.
Proof.
  destruct i as [now ok | now ok | now now' | | | event info | | cm];
    unfold exec, step, next.
  - unfold lcb_bootstrap_initial, lcb_confmon_prepare, emit, modify.
    unfold bind. fold (prepared s). rewrite bootstrap_common_eq.
    change (bootstrap (prepared s)) with (bootstrap s).
    change (lcb_confmon_is_refreshing (prepared s)) with (lcb_confmon_is_refreshing s).
    destruct (bootstrap s); [destruct (lcb_confmon_is_refreshing s) | destruct ok];
      reflexivity.
  - unfold lcb_bootstrap_refresh, bind. rewrite bootstrap_common_eq.
    destruct (bootstrap s); [destruct (lcb_confmon_is_refreshing s) | destruct ok];
      reflexivity.
  - destruct (bootstrap s) as [bs |] eqn:Hb.
    + rewrite (lcb_bootstrap_errcount_incr_eq s bs now now' Hb).
      destruct (suppressed s bs now); [reflexivity |].
      unfold bind.
      rewrite lcb_bootstrap_refresh_session with (bs := set_errcounter 0 bs)
        by reflexivity.
      change (lcb_confmon_is_refreshing (counter_reset s bs))
        with (lcb_confmon_is_refreshing s).
      destruct (lcb_confmon_is_refreshing s); reflexivity.
    + destruct s as [b cm cfg le ty dt ci vb po tr].
      cbn [bootstrap] in Hb. subst b. reflexivity.
  - unfold lcb_bootstrap_destroy. unfold bind at 1. unfold gets at 1.
    destruct (bootstrap s); reflexivity.
  - unfold bind.
    destruct (lcb_get_bootstrap_status_defined s) as [r E]. rewrite E. reflexivity.
  - unfold confmon_notify. unfold bind at 1. unfold gets at 1.
    destruct (bootstrap s) as [bs |] eqn:Hb; [| reflexivity].
    destruct (listener_callback bs); [reflexivity | |].
    + destruct (clconfig_event_eq_dec event CLCONFIG_EVENT_GOT_NEW_CONFIG) as [-> | Hne].
      * apply exec_config_callback_new_config. exact Hb.
      * destruct (clconfig_event_eq_dec event CLCONFIG_EVENT_PROVIDERS_CYCLED) as [-> | Hnc].
        -- rewrite (config_callback_cycled s bs info Hb).
           destruct (LCBT_VBCONFIG s); reflexivity.
        -- rewrite (config_callback_other s bs event info Hb Hne Hnc).
           destruct event; congruence.
    + destruct (clconfig_event_eq_dec event CLCONFIG_EVENT_GOT_NEW_CONFIG) as [-> | Hne].
      * rewrite (async_step_callback_eq s bs info Hb).
        destruct (dispatch_pending bs); reflexivity.
      * rewrite (async_step_callback_other s event info Hne).
        destruct event; congruence.
  - destruct (bootstrap s) as [bs |] eqn:Hb.
    + rewrite (timer_fire_eq s bs Hb).
      destruct (lcbio_timer_armed bs); [| reflexivity].
      destruct (lcbio_timer_get_target bs); [reflexivity |].
      apply exec_config_callback_new_config. reflexivity.
    + rewrite (timer_fire_no_session s Hb). reflexivity.
  - reflexivity.
Qed.

(** ** First success and the provider-adjustment policy *)

Lemma reverts_to_http_iff (s : lcb_st) :
  reverts_to_http s = true <->
  type s = LCB_TYPE_BUCKET /\ dist_type s = LCBVB_DIST_KETAMA /\
  exists ci : clconfig_info,
    cur_configinfo s = Some ci /\ origin ci <> LCB_CLCONFIG_MCRAW.
Proof.
  unfold reverts_to_http. split.
  - destruct (type s); [| discriminate].
    destruct (dist_type s); [discriminate |].
    destruct (cur_configinfo s) as [ci |]; [| discriminate].
    destruct (clconfig_method_eq_dec (origin ci) LCB_CLCONFIG_MCRAW); [discriminate |].
    intros _. repeat split. exists ci. split; [reflexivity | assumption].
  - intros (-> & -> & ci & -> & Ho).
    destruct (clconfig_method_eq_dec (origin ci) LCB_CLCONFIG_MCRAW); [contradiction | reflexivity].
Qed.

Lemma first_success_facts (s : lcb_st) (bs : lcb_bootstrap_st)
    (info : option clconfig_info) :
  bootstrap s = Some bs -> bootstrapped bs = 0 ->
  let s' := new_config_result s bs info in
  bootstrap s' = Some (set_bootstrapped 1 (deferred_session bs)) /\
  pendops s' = pendops s - 1 /\
  filter is_aspend_del (trace s') = call_lcb_aspend_del :: filter is_aspend_del (trace s) /\
  filter is_bootstrap_callback (trace s')
    = call_callbacks_bootstrap LCB_SUCCESS :: filter is_bootstrap_callback (trace s) /\
  provider_calls s'
    = (if reverts_to_http s'
       then [call_lcb_confmon_set_provider_active LCB_CLCONFIG_CCCP 0;
             call_lcb_confmon_set_provider_active LCB_CLCONFIG_HTTP 1]
       else []) ++ provider_calls s /\
  (type s = LCB_TYPE_BUCKET -> info <> None -> cur_configinfo s' = info).
Proof.
  intros Hb Hbt. destruct s as [b cm cfg le ty dt ci vb po tr].
  cbn [bootstrap] in Hb. subst b.
  destruct bs as [cb t lr bt ec]. cbn [bootstrapped] in Hbt. subst bt.
  destruct ty; destruct info as [[o [d id]] |]; cbv zeta.
  - destruct d; destruct o; repeat (split; [reflexivity |]); reflexivity.
  - destruct dt; destruct ci as [[o' v'] |]; try destruct o';
      repeat (split; [reflexivity |]); congruence.
  - repeat (split; [reflexivity |]); discriminate.
  - repeat (split; [reflexivity |]); discriminate.
Qed.

Lemma new_config_trace (s : lcb_st) (bs : lcb_bootstrap_st)
    (info : option clconfig_info) :
  trace (new_config_result s bs info) = new_config_calls s bs info ++ trace s.
Proof.
  destruct s as [b cm cfg le ty dt ci vb po tr].
  destruct bs as [cb t lr bt ec].
  destruct ty; destruct info as [[o [d id]] |]; destruct bt; try reflexivity;
    try (destruct d; destruct o; reflexivity);
    destruct dt; destruct ci as [[o' v'] |]; try destruct o'; reflexivity.
Qed.

Lemma new_config_session (s : lcb_st) (bs : lcb_bootstrap_st)
    (info : option clconfig_info) :
  bootstrap (new_config_result s bs info)
    = Some (if bootstrapped bs =? 0 then set_bootstrapped 1 (deferred_session bs)
            else deferred_session bs).
Proof.
  destruct s as [b cm cfg le ty dt ci vb po tr].
  destruct bs as [cb t lr bt ec].
  destruct ty; destruct info as [[o [d id]] |]; destruct bt; try reflexivity;
    try (destruct d; destruct o; reflexivity);
    destruct dt; destruct ci as [[o' v'] |]; try destruct o'; reflexivity.
Qed.

Lemma new_config_pendops (s : lcb_st) (bs : lcb_bootstrap_st)
    (info : option clconfig_info) :
  pendops (new_config_result s bs info)
    = if bootstrapped bs =? 0 then pendops s - 1 else pendops s.
Proof.
  destruct s as [b cm cfg le ty dt ci vb po tr].
  destruct bs as [cb t lr bt ec].
  destruct ty; destruct info as [[o [d id]] |]; destruct bt; try reflexivity;
    try (destruct d; destruct o; reflexivity);
    destruct dt; destruct ci as [[o' v'] |]; try destruct o'; reflexivity.
Qed.

Lemma session_policy_runs_new_config (s : lcb_st) (bs : lcb_bootstrap_st)
    (info : option clconfig_info) (tr : list call) :
  session_policy_runs (new_config_calls s bs info ++ tr)
    = ((if ((bootstrapped bs =? 0)%Z && reverts_to_http (new_config_result s bs info))%bool
        then 1 else 0) + session_policy_runs tr)%nat.
Proof.
  unfold new_config_calls.
  destruct (bootstrapped bs =? 0);
    destruct (reverts_to_http (new_config_result s bs info));
    destruct (type s); destruct info; reflexivity.
Qed.

Lemma next_policy_inv (i : input) (s s' : lcb_st) :
  policy_inv s -> next i s = Some s' -> policy_inv s'.
Proof.
  intros HI E. destruct s as [b cm cfg le ty dt ci vb po tr].
  unfold policy_inv in HI. cbn [bootstrap trace] in HI.
  destruct b as [[cb [armed tgt] lr bt ec] |].
  - cbn [bootstrapped] in HI.
    destruct HI as [[-> HI] | [-> HI]];
      destruct i; unfold next, on_new_config in E; simpl_rec_in E;
      break_next E; unfold policy_inv;
      rewrite ?new_config_session, ?new_config_trace,
        ?session_policy_runs_new_config;
      unfold_results; simpl_rec;
      try match goal with
          | |- context [reverts_to_http ?x] => destruct (reverts_to_http x)
          end;
      cbn;
      first [ exact I
            | left; split; [reflexivity | lia]
            | right; split; [reflexivity | lia] ].
  - destruct i; unfold next, on_new_config in E; simpl_rec_in E;
      break_next E; unfold policy_inv; unfold_results; simpl_rec;
      first [ exact I | left; split; reflexivity ].
Qed.

Lemma next_bootstrapped_stays (i : input) (s s' : lcb_st) (bs : lcb_bootstrap_st) :
  bootstrap s = Some bs -> bootstrapped bs = 1 -> next i s = Some s' ->
  i = In_destroy \/ option_map bootstrapped (bootstrap s') = Some 1.
Proof.
  intros Hb Hbt E. destruct s as [b cm cfg le ty dt ci vb po tr].
  cbn [bootstrap] in Hb. subst b.
  destruct bs as [cb [armed tgt] lr bt ec]. cbn [bootstrapped] in Hbt. subst bt.
  destruct i; [right | right | right | left; reflexivity | right | right | right | right];
    unfold next, on_new_config in E; simpl_rec_in E;
    break_next E; rewrite ?new_config_session; reflexivity.
Qed.

Lemma run_policy_inv (ins : list input) :
  forall s0 s : lcb_st, policy_inv s0 -> run ins s0 = Some s -> policy_inv s.
Proof.
  induction ins as [| i ins IH]; intros s0 s HI E.
  - injection E as <-. exact HI.
  - cbn [run] in E. rewrite exec_step in E.
    destruct (next i s0) as [s1 |] eqn:E1; [| discriminate E].
    apply (IH s1 s); [| exact E].
    apply (next_policy_inv i s0 s1 HI E1).
Qed.

(** C8: a new configuration processed while [bootstrapped] is 0 sets the
    flag to 1, takes the pending counter down by one with a single
    [lcb_aspend_del], and calls the completion callback once, with
    success; the cluster-push provider is disabled and the HTTP provider
    enabled exactly when the instance is a bucket with ketama distribution
    whose current configuration does not come from the raw-memcached
    provider.  Once 1, the flag stays 1 under every input but destroy, and
    in every run from an instance without a session the policy has run at
    most once since the current session was created. *)
Theorem config_callback_first_success :
  (forall (s : lcb_st) (bs : lcb_bootstrap_st) (info : option clconfig_info),
     bootstrap s = Some bs ->
     bootstrapped bs = 0 ->
     type s = LCB_TYPE_CLUSTER \/ info <> None ->
     exists s' : lcb_st,
       config_callback CLCONFIG_EVENT_GOT_NEW_CONFIG info s = Some (tt, s') /\
       option_map bootstrapped (bootstrap s') = Some 1 /\
       pendops s' = pendops s - 1 /\
       filter is_aspend_del (trace s')
         = call_lcb_aspend_del :: filter is_aspend_del (trace s) /\
       filter is_bootstrap_callback (trace s')
         = call_callbacks_bootstrap LCB_SUCCESS
             :: filter is_bootstrap_callback (trace s) /\
       provider_calls s'
         = (if reverts_to_http s'
            then [call_lcb_confmon_set_provider_active LCB_CLCONFIG_CCCP 0;
                  call_lcb_confmon_set_provider_active LCB_CLCONFIG_HTTP 1]
            else []) ++ provider_calls s /\
       (reverts_to_http s' = true <->
        type s' = LCB_TYPE_BUCKET /\ dist_type s' = LCBVB_DIST_KETAMA /\
        exists ci : clconfig_info,
          cur_configinfo s' = Some ci /\ origin ci <> LCB_CLCONFIG_MCRAW) /\
       (type s = LCB_TYPE_BUCKET -> cur_configinfo s' = info)) /\
  (forall (i : input) (s s' : lcb_st) (bs : lcb_bootstrap_st),
     bootstrap s = Some bs ->
     bootstrapped bs = 1 ->
     exec (step i) s = Some s' ->
     i = In_destroy \/ option_map bootstrapped (bootstrap s') = Some 1) /\
  (forall (ins : list input) (s0 s : lcb_st),
     bootstrap s0 = None ->
     run ins s0 = Some s ->
     bootstrap s <> None ->
     (session_policy_runs (trace s) <= 1)%nat).
Proof.
  split; [| split].
  - intros s bs info Hb Hbt Hdef.
    exists (new_config_result s bs info).
    split; [apply config_callback_new_config; assumption |].
    destruct (first_success_facts s bs info Hb Hbt) as (H1 & H2 & H3 & H4 & H5 & H6).
    split; [rewrite H1; reflexivity |].
    split; [exact H2 |]. split; [exact H3 |]. split; [exact H4 |].
    split; [exact H5 |]. split; [apply reverts_to_http_iff |].
    intros Ht. apply H6; [exact Ht |].
    destruct Hdef as [Hc | Hi]; [congruence | exact Hi].
  - intros i s s' bs Hb Hbt E. rewrite exec_step in E.
    apply (next_bootstrapped_stays i s s' bs Hb Hbt E).
  - intros ins s0 s Hb0 E Hb.
    assert (HI : policy_inv s).
    { apply (run_policy_inv ins s0 s); [| exact E].
      unfold policy_inv. rewrite Hb0. exact I. }
    unfold policy_inv in HI. destruct (bootstrap s); [| congruence].
    destruct HI as [[_ H] | [_ H]]; lia.
Qed.

Lemma config_callback_first_success_witness :
  (exists s' : lcb_st,
     config_callback CLCONFIG_EVENT_GOT_NEW_CONFIG (Some cfg_ketama_http)
       ketama_bootstrapping = Some (tt, s') /\
     option_map bootstrapped (bootstrap s') = Some 1 /\
     pendops s' = 0) /\
  (In_timer = In_destroy \/
   option_map bootstrapped (bootstrap steady_instance) = Some 1) /\
  (session_policy_runs
     (trace (new_config_result
               (initial_started
                  (session_created
                     (prepared (fresh_instance LCB_TYPE_BUCKET default_settings)))
                  calloc_bs 100%Z)
               (set_tm (mk_timer true tgt_initial_timeout)
                  (set_listener_callback cb_config_callback
                     (set_last_refresh 100%Z calloc_bs)))
               (Some cfg_ketama_http))) <= 1)%nat.
Proof.
  destruct config_callback_first_success as (Hfirst & Hstay & Honce).
  split; [| split].
  - destruct (Hfirst ketama_bootstrapping bootstrapping_session (Some cfg_ketama_http)
                eq_refl eq_refl (or_intror (fun H => eq_ind (Some cfg_ketama_http)
                  (fun o => match o with Some _ => True | None => False end) I None H)))
      as (s' & E & Hflag & Hpend & _).
    exists s'. split; [exact E |]. split; [exact Hflag | exact Hpend].
  - apply (Hstay In_timer steady_instance steady_instance steady_session);
      reflexivity.
  - apply (Honce [In_bootstrap_initial 100 true;
                  In_notify CLCONFIG_EVENT_GOT_NEW_CONFIG (Some cfg_ketama_http)]
                 (fresh_instance LCB_TYPE_BUCKET default_settings));
      [reflexivity | reflexivity | discriminate].
Defined.

(** ** Listener target *)

Lemma is_sync_new_config (s : lcb_st) (bs : lcb_bootstrap_st)
    (info : option clconfig_info) :
  is_sync (new_config_result s bs info) = false.
Proof.
  unfold is_sync. rewrite new_config_session.
  destruct (bootstrapped bs =? 0); reflexivity.
Qed.

Lemma next_sync_inv (i : input) (s s' : lcb_st) :
  sync_inv s -> next i s = Some s' -> sync_inv s'.
Proof.
  intros HI E. destruct s as [b cm cfg le ty dt ci vb po tr].
  unfold sync_inv in HI. cbn [trace] in HI.
  destruct b as [[cb [armed tgt] lr bt ec] |];
    [destruct cb; unfold is_sync in HI; simpl_rec_in HI |];
    destruct i; unfold next, on_new_config in E; simpl_rec_in E;
    break_next E; unfold sync_inv;
    rewrite ?is_sync_new_config;
    unfold_results; unfold is_sync; simpl_rec;
    try discriminate; intros _; try reflexivity;
    cbn [sync_window String.eqb Ascii.eqb Bool.eqb]; try reflexivity;
    apply HI; reflexivity.
Qed.

Lemma run_sync_inv (ins : list input) :
  forall s0 s : lcb_st, sync_inv s0 -> run ins s0 = Some s -> sync_inv s.
Proof.
  induction ins as [| i ins IH]; intros s0 s HI E.
  - injection E as <-. exact HI.
  - cbn [run] in E. rewrite exec_step in E.
    destruct (next i s0) as [s1 |] eqn:E1; [| discriminate E].
    apply (IH s1 s); [| exact E].
    apply (next_sync_inv i s0 s1 HI E1).
Qed.

Lemma next_sync_origin (i : input) (s s' : lcb_st) :
  next i s = Some s' -> is_sync s' = true ->
  is_sync s = true \/ is_initial i = true.
Proof.
  intros E. destruct s as [b cm cfg le ty dt ci vb po tr].
  destruct b as [[cb [armed tgt] lr bt ec] |];
    [destruct cb |];
    destruct i; unfold next, on_new_config in E; simpl_rec_in E;
    break_next E;
    rewrite ?is_sync_new_config;
    unfold_results; unfold is_sync, is_initial; simpl_rec;
    intros H; try discriminate H; auto.
Qed.

(** C4: processing a new configuration in [config_callback] always
    leaves the listener on the deferred target, whatever it was before;
    events then go to [async_step_callback]; a step can only lead to the
    synchronous target from the synchronous target or by an initial
    bootstrap call, which does set it when it is not de-duplicated and the
    allocation succeeds.  Hence, in every run from an instance without a
    session, whenever the target is synchronous an initial bootstrap was
    started before and no new configuration has been processed since. *)
Theorem listener_target_discipline :
  (forall (s : lcb_st) (bs : lcb_bootstrap_st) (info : option clconfig_info),
     bootstrap s = Some bs ->
     type s = LCB_TYPE_CLUSTER \/ info <> None ->
     exists s' : lcb_st,
       config_callback CLCONFIG_EVENT_GOT_NEW_CONFIG info s = Some (tt, s') /\
       option_map listener_callback (bootstrap s') = Some cb_async_step_callback /\
       is_sync s' = false) /\
  (forall (s : lcb_st) (bs : lcb_bootstrap_st) (event : clconfig_event_t)
          (info : option clconfig_info),
     bootstrap s = Some bs ->
     listener_callback bs = cb_async_step_callback ->
     confmon_notify event info s = async_step_callback event info s) /\
  (forall (i : input) (s s' : lcb_st),
     exec (step i) s = Some s' ->
     is_sync s' = true ->
     is_sync s = true \/ is_initial i = true) /\
  (forall (s s' : lcb_st) (now : hrtime_t) (calloc_ok : bool),
     exec (step (In_bootstrap_initial now calloc_ok)) s = Some s' ->
     (bootstrap s = None /\ calloc_ok = true) \/
     (bootstrap s <> None /\ lcb_confmon_is_refreshing s = false) ->
     is_sync s' = true) /\
  (forall (ins : list input) (s0 s : lcb_st),
     bootstrap s0 = None ->
     run ins s0 = Some s ->
     is_sync s = true ->
     sync_window (trace s) = true).
Proof.
  split; [| split; [| split; [| split]]].
  - intros s bs info Hb Hdef. exists (new_config_result s bs info).
    split; [apply config_callback_new_config; assumption |].
    split; [| apply is_sync_new_config].
    rewrite new_config_session. destruct (bootstrapped bs =? 0); reflexivity.
  - intros s bs event info Hb Hcb. unfold confmon_notify.
    unfold bind at 1. unfold gets at 1. rewrite Hb, Hcb. reflexivity.
  - intros i s s' E. rewrite exec_step in E. apply (next_sync_origin i s s' E).
  - intros s s' now calloc_ok E Hcase. rewrite exec_step in E.
    unfold next in E.
    destruct Hcase as [[Hb ->] | [Hb Hr]].
    + rewrite Hb in E. injection E as <-. reflexivity.
    + destruct (bootstrap s) as [bs |]; [| congruence].
      rewrite Hr in E. injection E as <-. reflexivity.
  - intros ins s0 s Hb0 E.
    apply (run_sync_inv ins s0 s); [| exact E].
    unfold sync_inv, is_sync. rewrite Hb0. discriminate.
Qed.

Lemma listener_target_discipline_witness :
  (exists s' : lcb_st,
     config_callback CLCONFIG_EVENT_GOT_NEW_CONFIG (Some cfg_cccp) bootstrapping_instance
       = Some (tt, s') /\
     option_map listener_callback (bootstrap s') = Some cb_async_step_callback /\
     is_sync s' = false) /\
  confmon_notify CLCONFIG_EVENT_GOT_NEW_CONFIG (Some cfg_cccp) steady_instance
    = async_step_callback CLCONFIG_EVENT_GOT_NEW_CONFIG (Some cfg_cccp) steady_instance /\
  is_sync (initial_started
             (session_created (prepared (fresh_instance LCB_TYPE_BUCKET default_settings)))
             calloc_bs 100) = true /\
  sync_window
    (trace (initial_started
              (session_created (prepared (fresh_instance LCB_TYPE_BUCKET default_settings)))
              calloc_bs 100)) = true.
Proof.
  destruct listener_target_discipline as (Hswitch & Hdeferred & _ & Hinit & Hrun).
  split; [| split; [| split]].
  - apply (Hswitch bootstrapping_instance bootstrapping_session (Some cfg_cccp) eq_refl).
    right. discriminate.
  - apply (Hdeferred steady_instance steady_session); reflexivity.
  - apply (Hinit (fresh_instance LCB_TYPE_BUCKET default_settings) _ 100 true).
    + reflexivity.
    + left. split; reflexivity.
  - apply (Hrun [In_bootstrap_initial 100 true]
                (fresh_instance LCB_TYPE_BUCKET default_settings)).
    + reflexivity.
    + reflexivity.
    + reflexivity.
Defined.

(** ** Coalescing of deferred dispatches *)

Lemma repeat_app_cons {A : Type} (x : A) (n : nat) (l : list A) :
  repeat x n ++ x :: l = x :: repeat x n ++ l.
Proof.
  induction n as [| n IH]; [reflexivity |].
  cbn [repeat app]. rewrite IH. reflexivity.
Qed.

Lemma run_dropped (bs : lcb_bootstrap_st) (infos : list (option clconfig_info)) :
  listener_callback bs = cb_async_step_callback ->
  dispatch_pending bs = true ->
  forall s : lcb_st,
    bootstrap s = Some bs ->
    run (notify_new_configs infos) s = Some (drops (length infos) s).
Proof.
  intros Hcb Hp. unfold drops. induction infos as [| info infos IH]; intros s Hb.
  - destruct s; reflexivity.
  - cbn [notify_new_configs map run]. rewrite exec_step.
    unfold next. rewrite Hb, Hcb, Hp.
    fold (notify_new_configs infos). rewrite IH by exact Hb.
    cbn [length repeat app]. destruct s; cbn [set_trace trace bootstrap confmon
      settings last_error type dist_type cur_configinfo vbconfig pendops].
    rewrite repeat_app_cons. reflexivity.
Qed.

Lemma configs_processed_new_config (s : lcb_st) (bs : lcb_bootstrap_st)
    (info : option clconfig_info) :
  configs_processed (new_config_result s bs info) = S (configs_processed s).
Proof.
  unfold configs_processed. rewrite new_config_trace. unfold new_config_calls.
  destruct (bootstrapped bs =? 0);
    destruct (reverts_to_http (new_config_result s bs info));
    destruct (type s); destruct info; reflexivity.
Qed.

Lemma has_pending_dispatch_new_config (s : lcb_st) (bs : lcb_bootstrap_st)
    (info : option clconfig_info) :
  has_pending_dispatch (new_config_result s bs info) = false.
Proof.
  unfold has_pending_dispatch. rewrite new_config_session.
  destruct (bootstrapped bs =? 0); reflexivity.
Qed.

Lemma timer_fire_idle (s : lcb_st) :
  has_pending_dispatch s = false ->
  (forall bs, bootstrap s = Some bs -> lcbio_timer_armed bs = false) ->
  timer_fire s = Some (tt, s).
Proof.
  intros _ Harm. destruct (bootstrap s) as [bs |] eqn:Hb.
  - rewrite (timer_fire_eq s bs Hb), (Harm bs eq_refl). reflexivity.
  - apply timer_fire_no_session. exact Hb.
Qed.

Lemma new_config_disarmed (s : lcb_st) (bs : lcb_bootstrap_st)
    (info : option clconfig_info) :
  forall bs', bootstrap (new_config_result s bs info) = Some bs' ->
              lcbio_timer_armed bs' = false.
Proof.
  intros bs'. rewrite new_config_session.
  destruct (bootstrapped bs =? 0); intros E; injection E as <-; reflexivity.
Qed.

(** C3: while a deferred dispatch is scheduled (timer armed and aimed at
    [async_refresh]), any number of new-configuration events reaching the
    deferred target are dropped, whatever configuration they carry: the
    instance only gains one "Timer already present.." log line per event.
    When the timer then fires, [config_callback] runs once on the
    configuration the monitor holds at that moment; afterwards nothing is
    scheduled and a further firing does nothing.  When no dispatch is
    scheduled, the first event schedules one and the following are
    dropped. *)
Theorem deferred_dispatch_coalescing :
  forall (s : lcb_st) (bs : lcb_bootstrap_st)
         (info : option clconfig_info) (infos : list (option clconfig_info))
         (cm : lcb_confmon),
    bootstrap s = Some bs ->
    listener_callback bs = cb_async_step_callback ->
    (dispatch_pending bs = true ->
     run (notify_new_configs infos) s = Some (drops (length infos) s) /\
     exec timer_fire (set_confmon cm (drops (length infos) s))
       = exec (config_callback CLCONFIG_EVENT_GOT_NEW_CONFIG (cm_config cm))
           (timer_fired (set_confmon cm (drops (length infos) s)) bs) /\
     (type s = LCB_TYPE_CLUSTER \/ cm_config cm <> None ->
      exists s2 : lcb_st,
        run (notify_new_configs infos ++ [In_confmon cm; In_timer]) s = Some s2 /\
        configs_processed s2 = S (configs_processed s) /\
        has_pending_dispatch s2 = false /\
        run [In_timer] s2 = Some s2)) /\
    (dispatch_pending bs = false ->
     run (notify_new_configs (info :: infos)) s
       = Some (drops (length infos) (dispatch_scheduled s bs)) /\
     has_pending_dispatch (drops (length infos) (dispatch_scheduled s bs)) = true).
Proof.
  intros s bs info infos cm Hb Hcb.
  set (dropped := fun s0 : lcb_st => drops (length infos) s0).
  change (drops (length infos) s) with (dropped s).
  change (drops (length infos) (dispatch_scheduled s bs))
    with (dropped (dispatch_scheduled s bs)).
  split.
  - intros Hp.
    assert (Hrun : run (notify_new_configs infos) s = Some (dropped s))
      by (apply (run_dropped bs infos Hcb Hp s Hb)).
    assert (Hbd : bootstrap (set_confmon cm (dropped s)) = Some bs) by exact Hb.
    assert (Harm : lcbio_timer_armed bs = true /\
                   lcbio_timer_get_target bs = tgt_async_refresh).
    { unfold dispatch_pending in Hp. apply andb_true_iff in Hp.
      destruct Hp as [Ha Ht]. split; [exact Ha |].
      destruct (timer_target_eq_dec (lcbio_timer_get_target bs) tgt_async_refresh);
        [assumption | discriminate]. }
    destruct Harm as [Ha Ht].
    assert (Hfire : timer_fire (set_confmon cm (dropped s))
                    = config_callback CLCONFIG_EVENT_GOT_NEW_CONFIG (cm_config cm)
                        (timer_fired (set_confmon cm (dropped s)) bs)).
    { rewrite (timer_fire_eq _ bs Hbd), Ha, Ht. reflexivity. }
    split; [exact Hrun |]. split; [unfold exec; rewrite Hfire; reflexivity |].
    intros Hdef.
    set (s1 := timer_fired (set_confmon cm (dropped s)) bs) in *.
    set (bs1 := set_tm (mk_timer false (tm_target (tm bs))) bs).
    exists (new_config_result s1 bs1 (cm_config cm)).
    assert (Hcc : config_callback CLCONFIG_EVENT_GOT_NEW_CONFIG (cm_config cm) s1
                  = Some (tt, new_config_result s1 bs1 (cm_config cm))).
    { apply config_callback_new_config; [reflexivity | exact Hdef]. }
    split; [| split; [| split]].
    + assert (Happ : forall l1 l2 a b, run l1 a = Some b -> run (l1 ++ l2) a = run l2 b).
      { induction l1 as [| i l1 IH]; intros l2 a b E.
        - injection E as ->. reflexivity.
        - cbn [run app] in *. destruct (exec (step i) a); [| discriminate E].
          apply IH. exact E. }
      rewrite (Happ _ _ _ _ Hrun). cbn [run].
      change (exec (step (In_confmon cm)) (dropped s))
        with (Some (set_confmon cm (dropped s))).
      cbn [step]. unfold exec at 1. rewrite Hfire, Hcc. reflexivity.
    + rewrite configs_processed_new_config. f_equal.
      unfold configs_processed, s1, dropped, drops.
      destruct s as [b cm0 cfg le ty dt ci vb po tr].
      cbn [timer_fired set_confmon set_bootstrap set_trace trace].
      rewrite filter_app.
      assert (Hnone : forall n, filter is_configured_log (repeat dropped_log n) = []).
      { induction n as [| n IH]; [reflexivity | exact IH]. }
      rewrite Hnone. reflexivity.
    + apply has_pending_dispatch_new_config.
    + cbn [run step]. unfold exec.
      rewrite timer_fire_idle; [reflexivity | |].
      * apply has_pending_dispatch_new_config.
      * apply new_config_disarmed.
  - intros Hp. split.
    + cbn [notify_new_configs map run]. rewrite exec_step.
      unfold next. rewrite Hb, Hcb, Hp.
      fold (notify_new_configs infos).
      apply (run_dropped (set_tm (mk_timer true tgt_async_refresh) bs) infos).
      * exact Hcb.
      * reflexivity.
      * reflexivity.
    + reflexivity.
Qed.

Lemma deferred_dispatch_coalescing_witness :
  run (notify_new_configs [Some cfg_cccp; None; Some cfg_ketama_http]) pending_instance
    = Some (drops 3 pending_instance) /\
  (exists s2 : lcb_st,
     run (notify_new_configs [Some cfg_cccp; None; Some cfg_ketama_http]
            ++ [In_confmon (mk_confmon false (Some cfg_ketama_http) LCB_SUCCESS
                              false LCB_SUCCESS);
                In_timer]) pending_instance = Some s2 /\
     configs_processed s2 = S (configs_processed pending_instance) /\
     has_pending_dispatch s2 = false /\
     run [In_timer] s2 = Some s2) /\
  run (notify_new_configs [Some cfg_cccp; Some cfg_ketama_http]) steady_instance
    = Some (drops 1 (dispatch_scheduled steady_instance steady_session)).
Proof.
  split; [| split].
  - apply (proj1 (deferred_dispatch_coalescing pending_instance pending_session None
                    [Some cfg_cccp; None; Some cfg_ketama_http]
                    (confmon pending_instance) eq_refl eq_refl)).
    reflexivity.
  - apply (proj1 (deferred_dispatch_coalescing pending_instance pending_session None
                    [Some cfg_cccp; None; Some cfg_ketama_http]
                    (mk_confmon false (Some cfg_ketama_http) LCB_SUCCESS false LCB_SUCCESS)
                    eq_refl eq_refl)).
    + reflexivity.
    + right. discriminate.
  - apply (proj2 (deferred_dispatch_coalescing steady_instance steady_session
                    (Some cfg_cccp) [Some cfg_ketama_http]
                    (confmon steady_instance) eq_refl eq_refl)).
    reflexivity.
Defined.

Lemma filter_new_config_aspend_add (s : lcb_st) (bs : lcb_bootstrap_st)
    (info : option clconfig_info) :
  filter is_aspend_add (new_config_calls s bs info) = [].
Proof.
  unfold new_config_calls.
  destruct (bootstrapped bs =? 0);
    destruct (reverts_to_http (new_config_result s bs info));
    destruct (type s); destruct info; reflexivity.
Qed.

Lemma filter_new_config_aspend_del (s : lcb_st) (bs : lcb_bootstrap_st)
    (info : option clconfig_info) :
  filter is_aspend_del (new_config_calls s bs info)
    = if bootstrapped bs =? 0 then [call_lcb_aspend_del] else [].
Proof.
  unfold new_config_calls.
  destruct (bootstrapped bs =? 0);
    destruct (reverts_to_http (new_config_result s bs info));
    destruct (type s); destruct info; reflexivity.
Qed.

Lemma filter_new_config_bootstrap_callback (s : lcb_st) (bs : lcb_bootstrap_st)
    (info : option clconfig_info) :
  filter is_bootstrap_callback (new_config_calls s bs info)
    = if bootstrapped bs =? 0 then [call_callbacks_bootstrap LCB_SUCCESS] else [].
Proof.
  unfold new_config_calls.
  destruct (bootstrapped bs =? 0);
    destruct (reverts_to_http (new_config_result s bs info));
    destruct (type s); destruct info; reflexivity.
Qed.

(** ** Resolution of an initial bootstrap attempt *)

(** C1 does not hold of the code.  The success path of [config_callback]
    is guarded by [bootstrapped], but the failure path
    ([initial_bootstrap_error]) neither tests nor sets the flag and leaves
    the listener on the synchronous target.  On an instance without a
    session: start an initial bootstrap, let the initial timeout fire, then
    let a new configuration arrive.  The pending counter was incremented
    once and is decremented twice (it ends one below its starting value),
    and the completion callback runs twice, first with the error and then
    with success.  The same happens when the providers are exhausted
    twice in a row with no configuration. *)
Theorem initial_attempt_resolved_twice :
  forall (s : lcb_st) (now : hrtime_t) (ci : clconfig_info),
    bootstrap s = None ->
    (exists s' : lcb_st,
       run [In_bootstrap_initial now true;
            In_timer;
            In_notify CLCONFIG_EVENT_GOT_NEW_CONFIG (Some ci)] s = Some s' /\
       aspend_adds s' = S (aspend_adds s) /\
       aspend_dels s' = S (S (aspend_dels s)) /\
       filter is_bootstrap_callback (trace s')
         = call_callbacks_bootstrap LCB_SUCCESS
             :: call_callbacks_bootstrap (reported_error s LCB_ETIMEDOUT)
             :: filter is_bootstrap_callback (trace s) /\
       bootstrap_callbacks s' = S (S (bootstrap_callbacks s)) /\
       pendops s' = pendops s - 1) /\
    (LCBT_VBCONFIG s = None ->
     exists s' : lcb_st,
       run [In_bootstrap_initial now true;
            In_notify CLCONFIG_EVENT_PROVIDERS_CYCLED None;
            In_notify CLCONFIG_EVENT_PROVIDERS_CYCLED None] s = Some s' /\
       aspend_adds s' = S (aspend_adds s) /\
       aspend_dels s' = S (S (aspend_dels s)) /\
       bootstrap_callbacks s' = S (S (bootstrap_callbacks s)) /\
       pendops s' = pendops s - 1).
Proof.
  intros s now ci Hb.
  set (bs1 := set_tm (mk_timer true tgt_initial_timeout)
                (set_listener_callback cb_config_callback
                   (set_last_refresh now calloc_bs))).
  set (bs2 := set_tm (mk_timer false tgt_initial_timeout) bs1).
  set (s1 := initial_started (session_created (prepared s)) calloc_bs now).
  assert (E1 : exec (step (In_bootstrap_initial now true)) s = Some s1).
  { rewrite exec_step. unfold next. rewrite Hb. reflexivity. }
  assert (Hb1 : bootstrap s1 = Some bs1) by reflexivity.
  assert (Htr1 : trace s1
                 = call_lcb_confmon_start
                     :: call_lcb_aspend_add
                     :: call_lcbio_timer_rearm (config_timeout (settings s))
                     :: call_lcbio_timer_set_target tgt_initial_timeout
                     :: call_lcb_confmon_add_listener
                     :: call_lcbio_timer_new tgt_initial_timeout
                     :: call_lcb_confmon_prepare
                     :: trace s) by reflexivity.
  assert (Hp1 : pendops s1 = pendops s + 1) by reflexivity.
  split.
  - set (s2 := failed (timer_fired s1 bs1) bs2 LCB_ETIMEDOUT "Failed to bootstrap in time").
    assert (E2 : exec (step In_timer) s1 = Some s2).
    { rewrite exec_step. unfold next. rewrite Hb1. reflexivity. }
    assert (Hb2 : bootstrap s2 = Some bs2) by reflexivity.
    assert (E3 : exec (step (In_notify CLCONFIG_EVENT_GOT_NEW_CONFIG (Some ci))) s2
                 = Some (new_config_result s2 bs2 (Some ci))).
    { rewrite exec_step. unfold next. rewrite Hb2.
      change (listener_callback bs2) with cb_config_callback. cbv beta iota.
      unfold on_new_config. destruct (type s2); reflexivity. }
    exists (new_config_result s2 bs2 (Some ci)).
    split; [cbn [run]; rewrite E1, E2, E3; reflexivity |].
    unfold aspend_adds, aspend_dels, bootstrap_callbacks.
    rewrite new_config_trace, new_config_pendops, !filter_app.
    rewrite filter_new_config_aspend_add, filter_new_config_aspend_del,
      filter_new_config_bootstrap_callback.
    change (bootstrapped bs2 =? 0) with true. cbv beta iota.
    change (trace s2)
      with (call_lcb_maybe_breakout
              :: call_lcb_aspend_del
              :: call_callbacks_bootstrap (reported_error s LCB_ETIMEDOUT)
              :: call_lcbio_timer_disarm
              :: call_lcb_log LCB_LOG_ERR
                   "Failed to bootstrap client=%p. Code=0x%x, Message=%s"
              :: call_callbacks_error (reported_error s LCB_ETIMEDOUT)
                   "Failed to bootstrap in time"
              :: trace s1).
    change (pendops s2) with (pendops s1 - 1).
    rewrite Htr1, Hp1.
    cbn [filter is_aspend_add is_aspend_del is_bootstrap_callback app length].
    repeat (split; [reflexivity |]). lia.
  - intros Hv.
    set (s2 := failed s1 bs1 LCB_ERROR "No more bootstrap providers remain").
    set (s3 := failed s2 bs2 LCB_ERROR "No more bootstrap providers remain").
    assert (Hv1 : LCBT_VBCONFIG s1 = None) by exact Hv.
    assert (E2 : exec (step (In_notify CLCONFIG_EVENT_PROVIDERS_CYCLED None)) s1 = Some s2).
    { rewrite exec_step. unfold next. rewrite Hb1.
      change (listener_callback bs1) with cb_config_callback. cbv beta iota.
      rewrite Hv1. reflexivity. }
    assert (Hb2 : bootstrap s2 = Some bs2) by reflexivity.
    assert (Hv2 : LCBT_VBCONFIG s2 = None) by exact Hv.
    assert (E3 : exec (step (In_notify CLCONFIG_EVENT_PROVIDERS_CYCLED None)) s2 = Some s3).
    { rewrite exec_step. unfold next. rewrite Hb2.
      change (listener_callback bs2) with cb_config_callback. cbv beta iota.
      rewrite Hv2. reflexivity. }
    exists s3.
    split; [cbn [run]; rewrite E1, E2, E3; reflexivity |].
    unfold aspend_adds, aspend_dels, bootstrap_callbacks.
    change (trace s3)
      with (call_lcb_maybe_breakout
              :: call_lcb_aspend_del
              :: call_callbacks_bootstrap (reported_error s2 LCB_ERROR)
              :: call_lcbio_timer_disarm
              :: call_lcb_log LCB_LOG_ERR
                   "Failed to bootstrap client=%p. Code=0x%x, Message=%s"
              :: call_callbacks_error (reported_error s2 LCB_ERROR)
                   "No more bootstrap providers remain"
              :: call_lcb_maybe_breakout
              :: call_lcb_aspend_del
              :: call_callbacks_bootstrap (reported_error s1 LCB_ERROR)
              :: call_lcbio_timer_disarm
              :: call_lcb_log LCB_LOG_ERR
                   "Failed to bootstrap client=%p. Code=0x%x, Message=%s"
              :: call_callbacks_error (reported_error s1 LCB_ERROR)
                   "No more bootstrap providers remain"
              :: trace s1).
    change (pendops s3) with (pendops s1 - 1 - 1).
    rewrite Htr1, Hp1.
    cbn [filter is_aspend_add is_aspend_del is_bootstrap_callback app length].
    repeat (split; [reflexivity |]). lia.
Qed.

Lemma initial_attempt_resolved_twice_witness :
  (exists s' : lcb_st,
     run [In_bootstrap_initial 100 true;
          In_timer;
          In_notify CLCONFIG_EVENT_GOT_NEW_CONFIG (Some cfg_cccp)]
       (fresh_instance LCB_TYPE_BUCKET default_settings) = Some s' /\
     bootstrap_callbacks s' = 2%nat /\
     aspend_adds s' = 1%nat /\
     aspend_dels s' = 2%nat /\
     pendops s' = -1) /\
  (exists s' : lcb_st,
     run [In_bootstrap_initial 100 true;
          In_notify CLCONFIG_EVENT_PROVIDERS_CYCLED None;
          In_notify CLCONFIG_EVENT_PROVIDERS_CYCLED None]
       (fresh_instance LCB_TYPE_BUCKET default_settings) = Some s' /\
     bootstrap_callbacks s' = 2%nat /\
     pendops s' = -1).
Proof.
  destruct (initial_attempt_resolved_twice
              (fresh_instance LCB_TYPE_BUCKET default_settings)
              100 cfg_cccp eq_refl) as [Hlate Hcycled].
  split.
  - destruct Hlate as (s' & Hrun & Hadd & Hdel & _ & Hcb & Hpend).
    exists s'. split; [exact Hrun |].
    split; [exact Hcb |]. split; [exact Hadd |]. split; [exact Hdel | exact Hpend].
  - destruct (Hcycled eq_refl) as (s' & Hrun & _ & _ & Hcb & Hpend).
    exists s'. split; [exact Hrun |]. split; [exact Hcb | exact Hpend].
Defined.

(** * Further properties *)

(** ** Teardown *)

Lemma run_cons (i : input) (ins : list input) (s : lcb_st) :
  run (i :: ins) s = match next i s with
                     | Some s1 => run ins s1
                     | None => None
                     end.
Proof. cbn [run]. rewrite exec_step. reflexivity. Qed.


(** X2: destroying the session while an initial bootstrap is outstanding
    does not resolve the attempt: no callback runs, [lcb_aspend_del] is not
    called, and the pending counter keeps the increment of the attempt. *)
Theorem destroy_during_initial_bootstrap :
  forall (s : lcb_st) (now : hrtime_t),
    bootstrap s = None ->
    exists s' : lcb_st,
      run [In_bootstrap_initial now true; In_destroy] s = Some s' /\
      bootstrap s' = None /\
      pendops s' = pendops s + 1 /\
      count_calls is_aspend_del s' = count_calls is_aspend_del s /\
      user_callbacks s' = user_callbacks s /\
      count_calls is_timer_destroy s' = S (count_calls is_timer_destroy s) /\
      count_calls is_remove_listener s' = S (count_calls is_remove_listener s).
Proof.
  intros s now Hb.
  exists (destroyed (initial_started (session_created (prepared s)) calloc_bs now)).
  split.
  - rewrite run_cons. unfold next at 1. rewrite Hb.
    rewrite run_cons. reflexivity.
  - repeat (split; [reflexivity |]). reflexivity.
Qed.

Lemma destroy_during_initial_bootstrap_witness :
  exists s' : lcb_st,
    run [In_bootstrap_initial 100 true; In_destroy]
      (fresh_instance LCB_TYPE_BUCKET default_settings) = Some s' /\
    bootstrap s' = None /\
    pendops s' = 1.
Proof.
  destruct (destroy_during_initial_bootstrap
              (fresh_instance LCB_TYPE_BUCKET default_settings) 100 eq_refl)
    as (s' & Hrun & Hb & Hp & _).
  exists s'. split; [exact Hrun |]. split; [exact Hb | exact Hp].
Defined.

(** ** What the failure path reports *)

Lemma reported_error_not_success (s : lcb_st) (err : lcb_error_t) :
  err <> LCB_SUCCESS -> reported_error s err <> LCB_SUCCESS.
Proof.
  intros He. unfold reported_error.
  destruct (lcb_error_eq_dec (cm_last_error (confmon s)) LCB_SUCCESS); assumption.
Qed.

(** X3: the failure path never reports success.  Called with an error
    code other than [LCB_SUCCESS] (both call sites pass one), it records
    the monitor's last error if there is one and the supplied code
    otherwise; the error callback runs first and the completion callback
    second, both with that code; the timer ends disarmed; and as long as
    the owner holds no configuration the status query returns that same
    code afterwards.  [initial_timeout] is this path with
    [LCB_ETIMEDOUT]. *)
Theorem initial_bootstrap_error_reports :
  forall (s : lcb_st) (bs : lcb_bootstrap_st) (err : lcb_error_t) (errinfo : string),
    bootstrap s = Some bs ->
    err <> LCB_SUCCESS ->
    exists s' : lcb_st,
      initial_bootstrap_error err errinfo s = Some (tt, s') /\
      initial_timeout s
        = initial_bootstrap_error LCB_ETIMEDOUT "Failed to bootstrap in time" s /\
      last_error s' <> LCB_SUCCESS /\
      (cm_last_error (confmon s) = LCB_SUCCESS -> last_error s' = err) /\
      (cm_last_error (confmon s) <> LCB_SUCCESS ->
       last_error s' = cm_last_error (confmon s)) /\
      user_callbacks s'
        = call_callbacks_bootstrap (last_error s')
            :: call_callbacks_error (last_error s') errinfo
            :: user_callbacks s /\
      timer_armed_in s' = false /\
      pendops s' = pendops s - 1 /\
      (cur_configinfo s = None ->
       lcb_get_bootstrap_status s' = Some (last_error s', s')).
Proof.
  intros s bs err errinfo Hb He.
  exists (failed s bs err errinfo).
  split; [apply initial_bootstrap_error_run; exact Hb |].
  split.
  { unfold initial_timeout. unfold bind at 1. unfold get_bs. rewrite Hb. reflexivity. }
  change (last_error (failed s bs err errinfo)) with (reported_error s err).
  split; [apply reported_error_not_success; exact He |].
  split.
  { intros Hc. unfold reported_error. rewrite Hc. reflexivity. }
  split.
  { intros Hc. unfold reported_error.
    destruct (lcb_error_eq_dec (cm_last_error (confmon s)) LCB_SUCCESS);
      [contradiction | reflexivity]. }
  split; [reflexivity |]. split; [reflexivity |]. split; [reflexivity |].
  intros Hci. apply status_with_error.
  - exact Hci.
  - apply reported_error_not_success. exact He.
Qed.

Lemma initial_bootstrap_error_reports_witness :
  exists s' : lcb_st,
    initial_bootstrap_error LCB_ETIMEDOUT "Failed to bootstrap in time"
      bootstrapping_instance = Some (tt, s') /\
    last_error s' = LCB_ETIMEDOUT /\
    lcb_get_bootstrap_status s' = Some (LCB_ETIMEDOUT, s').
Proof.
  destruct (initial_bootstrap_error_reports bootstrapping_instance bootstrapping_session
              LCB_ETIMEDOUT "Failed to bootstrap in time" eq_refl)
    as (s' & Hrun & _ & _ & Hcode & _ & _ & _ & _ & Hstatus).
  - discriminate.
  - exists s'. split; [exact Hrun |].
    assert (Hle : last_error s' = LCB_ETIMEDOUT) by (apply Hcode; reflexivity).
    split; [exact Hle |]. rewrite <- Hle. apply Hstatus. reflexivity.
Defined.

(** ** The status query after a new configuration *)

Lemma new_config_last_error (s : lcb_st) (bs : lcb_bootstrap_st)
    (info : option clconfig_info) :
  last_error (new_config_result s bs info) = LCB_SUCCESS.
Proof.
  destruct s as [b cm cfg le ty dt ci vb po tr].
  destruct bs as [cb t lr bt ec].
  destruct ty; destruct info as [[o [d id]] |]; destruct bt; try reflexivity;
    try (destruct d; destruct o; reflexivity);
    destruct dt; destruct ci as [[o' v'] |]; try destruct o'; reflexivity.
Qed.

Lemma new_config_topology (s : lcb_st) (bs : lcb_bootstrap_st)
    (info : option clconfig_info) :
  cur_configinfo (new_config_result s bs info)
    = match type s, info with
      | LCB_TYPE_BUCKET, Some ci => Some ci
      | _, _ => cur_configinfo s
      end /\
  vbconfig (new_config_result s bs info)
    = match type s, info with
      | LCB_TYPE_BUCKET, Some ci => Some (vbc ci)
      | _, _ => vbconfig s
      end /\
  type (new_config_result s bs info) = type s /\
  confmon (new_config_result s bs info) = confmon s.
Proof.
  destruct s as [b cm cfg le ty dt ci vb po tr].
  destruct bs as [cb t lr bt ec].
  destruct ty; destruct info as [[o [d id]] |]; destruct bt;
    try (repeat split; reflexivity);
    try (destruct d; destruct o; repeat split; reflexivity);
    destruct dt; destruct ci as [[o' v'] |]; try destruct o'; repeat split; reflexivity.
Qed.

(** X4: after [config_callback] processed a new configuration the last
    error is cleared, whatever it was.  On a bucket instance the owner then
    holds the snapshot and the status query succeeds.  On a cluster
    instance the snapshot is not applied: if the owner held no
    configuration it still holds none, and the status query succeeds only
    if a management connection is up and returns [LCB_ERROR] otherwise. *)
Theorem status_after_new_config :
  forall (s : lcb_st) (bs : lcb_bootstrap_st) (ci : clconfig_info),
    bootstrap s = Some bs ->
    exists s' : lcb_st,
      config_callback CLCONFIG_EVENT_GOT_NEW_CONFIG (Some ci) s = Some (tt, s') /\
      last_error s' = LCB_SUCCESS /\
      (type s = LCB_TYPE_BUCKET ->
       cur_configinfo s' = Some ci /\
       LCBT_VBCONFIG s' = Some (vbc ci) /\
       lcb_get_bootstrap_status s' = Some (LCB_SUCCESS, s')) /\
      (type s = LCB_TYPE_CLUSTER ->
       cur_configinfo s' = cur_configinfo s /\
       LCBT_VBCONFIG s' = LCBT_VBCONFIG s /\
       (cur_configinfo s = None ->
        lcb_get_bootstrap_status s'
          = Some (if cm_rest_connection (confmon s) then LCB_SUCCESS else LCB_ERROR, s'))).
Proof.
  intros s bs ci Hb.
  exists (new_config_result s bs (Some ci)).
  split.
  { apply config_callback_new_config; [exact Hb | right; discriminate]. }
  split; [apply new_config_last_error |].
  destruct (new_config_topology s bs (Some ci)) as (Hci & Hvb & Hty & Hcm).
  split.
  - intros Ht. rewrite Ht in Hci, Hvb.
    split; [exact Hci |]. split; [exact Hvb |].
    apply status_with_config. rewrite Hci. discriminate.
  - intros Ht. rewrite Ht in Hci, Hvb.
    split; [exact Hci |]. split; [exact Hvb |].
    intros Hnone. rewrite Hnone in Hci.
    destruct (cm_rest_connection (confmon s)) eqn:Hr.
    + apply status_cluster_connected.
      * exact Hci.
      * apply new_config_last_error.
      * rewrite Hty. exact Ht.
      * rewrite Hcm. exact Hr.
    + apply status_not_ready.
      * exact Hci.
      * apply new_config_last_error.
      * rewrite Hcm, Hr. intros [_ H]. discriminate H.
Qed.

Lemma status_after_new_config_witness :
  exists s' : lcb_st,
    config_callback CLCONFIG_EVENT_GOT_NEW_CONFIG (Some cfg_cccp)
      (set_last_error LCB_ETIMEDOUT bootstrapping_instance) = Some (tt, s') /\
    last_error s' = LCB_SUCCESS /\
    lcb_get_bootstrap_status s' = Some (LCB_SUCCESS, s').
Proof.
  destruct (status_after_new_config (set_last_error LCB_ETIMEDOUT bootstrapping_instance)
              bootstrapping_session cfg_cccp eq_refl)
    as (s' & Hrun & Hle & Hbucket & _).
  exists s'. split; [exact Hrun |]. split; [exact Hle |].
  apply Hbucket. reflexivity.
Defined.

(** ** Whole attempts *)

Lemma filter_new_config_user_callback (s : lcb_st) (bs : lcb_bootstrap_st)
    (info : option clconfig_info) :
  filter is_user_callback (new_config_calls s bs info)
    = if bootstrapped bs =? 0 then [call_callbacks_bootstrap LCB_SUCCESS] else [].
Proof.
  unfold new_config_calls.
  destruct (bootstrapped bs =? 0);
    destruct (reverts_to_http (new_config_result s bs info));
    destruct (type s); destruct info; reflexivity.
Qed.

Lemma run_timer_after_new_config (s : lcb_st) (bs : lcb_bootstrap_st)
    (info : option clconfig_info) :
  run [In_timer] (new_config_result s bs info) = Some (new_config_result s bs info).
Proof.
  cbn [run step]. unfold exec.
  rewrite timer_fire_idle; [reflexivity | |].
  - apply has_pending_dispatch_new_config.
  - apply new_config_disarmed.
Qed.

Lemma timer_armed_in_new_config (s : lcb_st) (bs : lcb_bootstrap_st)
    (info : option clconfig_info) :
  timer_armed_in (new_config_result s bs info) = false.
Proof.
  unfold timer_armed_in. rewrite new_config_session.
  destruct (bootstrapped bs =? 0); reflexivity.
Qed.

(** X5: an initial bootstrap on an instance without a session, followed by
    the initial timeout and nothing else, resolves once: the completion
    callback runs once, after the error callback, with the monitor's last
    error or else [LCB_ETIMEDOUT]; one [lcb_aspend_add] is matched by one
    [lcb_aspend_del] and the pending counter is back at its starting
    value; the timer is disarmed, so firing it again does nothing. *)
Theorem initial_bootstrap_then_timeout :
  forall (s : lcb_st) (now : hrtime_t),
    bootstrap s = None ->
    exists s' : lcb_st,
      run [In_bootstrap_initial now true; In_timer] s = Some s' /\
      pendops s' = pendops s /\
      count_calls is_aspend_add s' = S (count_calls is_aspend_add s) /\
      count_calls is_aspend_del s' = S (count_calls is_aspend_del s) /\
      user_callbacks s'
        = call_callbacks_bootstrap (reported_error s LCB_ETIMEDOUT)
            :: call_callbacks_error (reported_error s LCB_ETIMEDOUT)
                 "Failed to bootstrap in time"
            :: user_callbacks s /\
      last_error s' = reported_error s LCB_ETIMEDOUT /\
      timer_armed_in s' = false /\
      run [In_timer] s' = Some s'.
Proof.
  intros s now Hb.
  set (bs1 := set_tm (mk_timer true tgt_initial_timeout)
                (set_listener_callback cb_config_callback
                   (set_last_refresh now calloc_bs))).
  set (s1 := initial_started (session_created (prepared s)) calloc_bs now).
  exists (failed (timer_fired s1 bs1)
            (set_tm (mk_timer false tgt_initial_timeout) bs1)
            LCB_ETIMEDOUT "Failed to bootstrap in time").
  split.
  { rewrite run_cons. unfold next at 1. rewrite Hb. fold s1.
    rewrite run_cons. reflexivity. }
  split; [cbn [failed pendops]; change (pendops (timer_fired s1 bs1)) with (pendops s + 1); lia |].
  repeat (split; [reflexivity |]). reflexivity.
Qed.

Lemma initial_bootstrap_then_timeout_witness :
  exists s' : lcb_st,
    run [In_bootstrap_initial 100 true; In_timer]
      (fresh_instance LCB_TYPE_BUCKET default_settings) = Some s' /\
    pendops s' = 0 /\
    last_error s' = LCB_ETIMEDOUT.
Proof.
  destruct (initial_bootstrap_then_timeout
              (fresh_instance LCB_TYPE_BUCKET default_settings) 100 eq_refl)
    as (s' & Hrun & Hp & _ & _ & _ & Hle & _).
  exists s'. split; [exact Hrun |]. split; [exact Hp | exact Hle].
Defined.

(** X6: an initial bootstrap on an instance without a session, followed by
    a new configuration, resolves once: the completion callback runs once
    with [LCB_SUCCESS] and the error callback not at all; the pending
    counter is back at its starting value; the flag is set and the listener
    deferred; the initial timeout is cancelled, so a later timer firing
    does nothing; on a bucket instance the status query then succeeds. *)
Theorem initial_bootstrap_then_config :
  forall (s : lcb_st) (now : hrtime_t) (ci : clconfig_info),
    bootstrap s = None ->
    exists s' : lcb_st,
      run [In_bootstrap_initial now true;
           In_notify CLCONFIG_EVENT_GOT_NEW_CONFIG (Some ci)] s = Some s' /\
      pendops s' = pendops s /\
      count_calls is_aspend_add s' = S (count_calls is_aspend_add s) /\
      count_calls is_aspend_del s' = S (count_calls is_aspend_del s) /\
      user_callbacks s' = call_callbacks_bootstrap LCB_SUCCESS :: user_callbacks s /\
      option_map bootstrapped (bootstrap s') = Some 1 /\
      is_sync s' = false /\
      timer_armed_in s' = false /\
      run [In_timer] s' = Some s' /\
      (type s = LCB_TYPE_BUCKET ->
       lcb_get_bootstrap_status s' = Some (LCB_SUCCESS, s')).
Proof.
  intros s now ci Hb.
  set (bs1 := set_tm (mk_timer true tgt_initial_timeout)
                (set_listener_callback cb_config_callback
                   (set_last_refresh now calloc_bs))).
  set (s1 := initial_started (session_created (prepared s)) calloc_bs now).
  assert (Hb1 : bootstrap s1 = Some bs1) by reflexivity.
  assert (Htr1 : trace s1
                 = call_lcb_confmon_start
                     :: call_lcb_aspend_add
                     :: call_lcbio_timer_rearm (config_timeout (settings s))
                     :: call_lcbio_timer_set_target tgt_initial_timeout
                     :: call_lcb_confmon_add_listener
                     :: call_lcbio_timer_new tgt_initial_timeout
                     :: call_lcb_confmon_prepare
                     :: trace s) by reflexivity.
  exists (new_config_result s1 bs1 (Some ci)).
  split.
  { rewrite run_cons. unfold next at 1. rewrite Hb. fold s1.
    rewrite run_cons. unfold next. rewrite Hb1.
    change (listener_callback bs1) with cb_config_callback. cbv beta iota.
    unfold on_new_config. destruct (type s1); reflexivity. }
  split.
  { rewrite new_config_pendops. change (bootstrapped bs1 =? 0) with true.
    cbv beta iota. change (pendops s1) with (pendops s + 1). lia. }
  unfold count_calls, user_callbacks.
  rewrite new_config_trace, !filter_app.
  rewrite filter_new_config_aspend_add, filter_new_config_aspend_del,
    filter_new_config_user_callback.
  change (bootstrapped bs1 =? 0) with true. cbv beta iota. rewrite Htr1.
  split; [reflexivity |]. split; [reflexivity |]. split; [reflexivity |].
  split; [rewrite new_config_session; reflexivity |].
  split; [apply is_sync_new_config |].
  split; [apply timer_armed_in_new_config |].
  split; [apply run_timer_after_new_config |].
  intros Ht. apply status_with_config.
  destruct (first_success_facts s1 bs1 (Some ci) Hb1 eq_refl) as (_ & _ & _ & _ & _ & H6).
  rewrite H6; [discriminate | exact Ht | discriminate].
Qed.

Lemma initial_bootstrap_then_config_witness :
  exists s' : lcb_st,
    run [In_bootstrap_initial 100 true;
         In_notify CLCONFIG_EVENT_GOT_NEW_CONFIG (Some cfg_cccp)]
      (fresh_instance LCB_TYPE_BUCKET default_settings) = Some s' /\
    pendops s' = 0 /\
    lcb_get_bootstrap_status s' = Some (LCB_SUCCESS, s').
Proof.
  destruct (initial_bootstrap_then_config
              (fresh_instance LCB_TYPE_BUCKET default_settings) 100 cfg_cccp eq_refl)
    as (s' & Hrun & Hp & _ & _ & _ & _ & _ & _ & _ & Hstatus).
  exists s'. split; [exact Hrun |]. split; [exact Hp |].
  apply Hstatus. reflexivity.
Defined.

(** X7: a session created by [lcb_refresh_config] (no initial bootstrap
    before) still takes the first-success path on its first configuration.
    The event is deferred; when the timer fires, [config_callback] finds
    [bootstrapped] at 0, calls the completion callback with [LCB_SUCCESS]
    and calls [lcb_aspend_del], although no [lcb_aspend_add] was made: the
    pending counter ends one below its starting value. *)
Theorem refresh_created_session_first_config :
  forall (s : lcb_st) (now : hrtime_t) (ci : clconfig_info) (cm : lcb_confmon)
         (info : option clconfig_info),
    bootstrap s = None ->
    cm_config cm = Some ci ->
    exists s1 s' : lcb_st,
      exec (lcb_refresh_config now true) s = Some s1 /\
      pendops s1 = pendops s /\
      timer_armed_in s1 = false /\
      is_sync s1 = false /\
      run [In_confmon cm;
           In_notify CLCONFIG_EVENT_GOT_NEW_CONFIG info;
           In_timer] s1 = Some s' /\
      pendops s' = pendops s - 1 /\
      count_calls is_aspend_add s' = count_calls is_aspend_add s /\
      count_calls is_aspend_del s' = S (count_calls is_aspend_del s) /\
      user_callbacks s' = call_callbacks_bootstrap LCB_SUCCESS :: user_callbacks s /\
      option_map bootstrapped (bootstrap s') = Some 1.
Proof.
  intros s now ci cm info Hb Hcm.
  set (bs1 := set_listener_callback cb_async_step_callback
                (set_last_refresh now calloc_bs)).
  set (s1 := refreshed (session_created s) calloc_bs now).
  set (s2 := set_confmon cm s1).
  set (bs3 := set_tm (mk_timer true tgt_async_refresh) bs1).
  set (s3 := dispatch_scheduled s2 bs1).
  set (bs4 := set_tm (mk_timer false tgt_async_refresh) bs3).
  set (s4 := timer_fired s3 bs3).
  exists s1, (new_config_result s4 bs4 (Some ci)).
  split.
  { unfold lcb_refresh_config, lcb_bootstrap_refresh, exec, bind.
    rewrite bootstrap_common_eq, Hb. reflexivity. }
  split; [reflexivity |]. split; [reflexivity |]. split; [reflexivity |].
  assert (Htr4 : trace s4
                 = call_lcbio_async_signal
                     :: call_lcbio_timer_set_target tgt_async_refresh
                     :: call_lcb_log LCB_LOG_INFO "Got async step callback.."
                     :: call_lcb_confmon_start
                     :: call_lcb_confmon_add_listener
                     :: call_lcbio_timer_new tgt_initial_timeout
                     :: trace s) by reflexivity.
  split.
  { rewrite run_cons. cbn [next]. fold s2.
    rewrite run_cons. unfold next at 1.
    change (bootstrap s2) with (Some bs1). cbv beta iota.
    change (listener_callback bs1) with cb_async_step_callback.
    change (dispatch_pending bs1) with false. cbv beta iota. fold s3.
    rewrite run_cons. unfold next.
    change (bootstrap s3) with (Some bs3). cbv beta iota.
    change (lcbio_timer_armed bs3) with true.
    change (lcbio_timer_get_target bs3) with tgt_async_refresh.
    cbv beta iota. fold s4.
    change (lcb_confmon_get_config s3) with (cm_config cm). rewrite Hcm.
    unfold on_new_config. change (set_tm (mk_timer false (tm_target (tm bs3))) bs3) with bs4.
    destruct (type s4); reflexivity. }
  split.
  { rewrite new_config_pendops. change (bootstrapped bs4 =? 0) with true.
    cbv beta iota. reflexivity. }
  unfold count_calls, user_callbacks.
  rewrite new_config_trace, !filter_app.
  rewrite filter_new_config_aspend_add, filter_new_config_aspend_del,
    filter_new_config_user_callback.
  change (bootstrapped bs4 =? 0) with true. cbv beta iota. rewrite Htr4.
  split; [reflexivity |]. split; [reflexivity |]. split; [reflexivity |].
  rewrite new_config_session. reflexivity.
Qed.

Lemma refresh_created_session_first_config_witness :
  exists s1 s' : lcb_st,
    exec (lcb_refresh_config 100 true) (fresh_instance LCB_TYPE_BUCKET default_settings)
      = Some s1 /\
    run [In_confmon (confmon steady_instance);
         In_notify CLCONFIG_EVENT_GOT_NEW_CONFIG (Some cfg_cccp);
         In_timer] s1 = Some s' /\
    pendops s' = -1.
Proof.
  destruct (refresh_created_session_first_config
              (fresh_instance LCB_TYPE_BUCKET default_settings) 100 cfg_cccp
              (confmon steady_instance) (Some cfg_cccp) eq_refl eq_refl)
    as (s1 & s' & Hrefresh & _ & _ & _ & Hrun & Hp & _).
  exists s1, s'. split; [exact Hrefresh |]. split; [exact Hrun | exact Hp].
Defined.

(** X8: an initial bootstrap started on a session that has already
    bootstrapped ([bootstrapped] at 1, monitor not refreshing) is not
    resolved by the next configuration: [config_callback] skips the
    first-success block, so no callback runs and [lcb_aspend_del] is not
    called; the pending counter keeps the increment of the attempt, while
    the initial timer is disarmed. *)
Theorem rebootstrap_not_resolved_by_config :
  forall (s : lcb_st) (bs : lcb_bootstrap_st) (now : hrtime_t) (calloc_ok : bool)
         (ci : clconfig_info),
    bootstrap s = Some bs ->
    bootstrapped bs = 1 ->
    lcb_confmon_is_refreshing s = false ->
    exists s' : lcb_st,
      run [In_bootstrap_initial now calloc_ok;
           In_notify CLCONFIG_EVENT_GOT_NEW_CONFIG (Some ci)] s = Some s' /\
      pendops s' = pendops s + 1 /\
      count_calls is_aspend_add s' = S (count_calls is_aspend_add s) /\
      count_calls is_aspend_del s' = count_calls is_aspend_del s /\
      user_callbacks s' = user_callbacks s /\
      timer_armed_in s' = false /\
      is_sync s' = false.
Proof.
  intros s bs now calloc_ok ci Hb Hbt Hr.
  set (bs1 := set_tm (mk_timer true tgt_initial_timeout)
                (set_listener_callback cb_config_callback (set_last_refresh now bs))).
  set (s1 := initial_started (prepared s) bs now).
  assert (Hbt1 : (bootstrapped bs1 =? 0) = false).
  { change (bootstrapped bs1) with (bootstrapped bs). rewrite Hbt. reflexivity. }
  exists (new_config_result s1 bs1 (Some ci)).
  split.
  { rewrite run_cons. unfold next at 1. rewrite Hb, Hr. fold s1.
    rewrite run_cons. unfold next.
    change (bootstrap s1) with (Some bs1). cbv beta iota.
    change (listener_callback bs1) with cb_config_callback. cbv beta iota.
    unfold on_new_config. destruct (type s1); reflexivity. }
  split.
  { rewrite new_config_pendops, Hbt1. reflexivity. }
  unfold count_calls, user_callbacks.
  rewrite new_config_trace, !filter_app.
  rewrite filter_new_config_aspend_add, filter_new_config_aspend_del,
    filter_new_config_user_callback, Hbt1.
  split; [reflexivity |]. split; [reflexivity |]. split; [reflexivity |].
  split; [apply timer_armed_in_new_config | apply is_sync_new_config].
Qed.

Lemma rebootstrap_not_resolved_by_config_witness :
  exists s' : lcb_st,
    run [In_bootstrap_initial 9000 true;
         In_notify CLCONFIG_EVENT_GOT_NEW_CONFIG (Some cfg_cccp)] steady_instance
      = Some s' /\
    pendops s' = 1 /\
    user_callbacks s' = [].
Proof.
  destruct (rebootstrap_not_resolved_by_config steady_instance steady_session 9000 true
              cfg_cccp eq_refl eq_refl eq_refl)
    as (s' & Hrun & Hp & _ & _ & Hcb & _).
  exists s'. split; [exact Hrun |]. split; [exact Hp | exact Hcb].
Defined.

(** ** The error counter *)

Lemma new_config_thresholds (s : lcb_st) (bs : lcb_bootstrap_st)
    (info : option clconfig_info) :
  weird_things_threshold (settings (new_config_result s bs info))
    = weird_things_threshold (settings s) /\
  weird_things_delay (settings (new_config_result s bs info))
    = weird_things_delay (settings s) /\
  config_timeout (settings (new_config_result s bs info))
    = config_timeout (settings s).
Proof.
  destruct s as [b cm cfg le ty dt ci vb po tr].
  destruct bs as [cb t lr bt ec].
  destruct ty; destruct info as [[o [d id]] |]; destruct bt;
    try (repeat split; reflexivity);
    try (destruct d; destruct o; repeat split; reflexivity);
    destruct dt; destruct ci as [[o' v'] |]; try destruct o'; repeat split; reflexivity.
Qed.

Lemma errcounter_incr_range (c : Z) : 0 <= errcounter_incr c < 2 ^ 32.
Proof. unfold errcounter_incr. apply Z.mod_pos_bound. reflexivity. Qed.

Lemma next_errcounter_inv (i : input) (s s' : lcb_st) :
  errcounter_inv s -> next i s = Some s' -> errcounter_inv s'.
Proof.
  intros HI E. destruct s as [b cm cfg le ty dt ci vb po tr].
  unfold errcounter_inv in HI. cbn [bootstrap settings] in HI.
  assert (H0 : 0 <= 0 < 2 ^ 32 /\ (0 = 0 \/ 0 < weird_things_threshold cfg))
    by (split; [split; [lia | reflexivity] | left; reflexivity]).
  destruct b as [[cb [armed tgt] lr bt ec] |]; [cbn [errcounter] in HI |];
    destruct i; unfold next, on_new_config in E; simpl_rec_in E;
    break_next E; unfold errcounter_inv;
    rewrite ?new_config_session, ?(proj1 (new_config_thresholds _ _ _));
    unfold_results; simpl_rec;
    try match goal with
        | |- context [if ?c then _ else _] => destruct c
        end;
    simpl_rec;
    try exact I; try exact HI; try exact H0.
  all: match goal with
       | H : suppressed _ _ _ = true |- _ =>
           unfold suppressed in H; simpl_rec_in H;
           apply andb_true_iff in H; destruct H as [_ H]; apply Z.ltb_lt in H;
           split; [apply errcounter_incr_range | right; exact H]
       end.
Qed.

Lemma run_errcounter_inv (ins : list input) :
  forall s0 s : lcb_st, errcounter_inv s0 -> run ins s0 = Some s -> errcounter_inv s.
Proof.
  induction ins as [| i ins IH]; intros s0 s HI E.
  - injection E as <-. exact HI.
  - rewrite run_cons in E.
    destruct (next i s0) as [s1 |] eqn:E1; [| discriminate E].
    apply (IH s1 s); [| exact E].
    apply (next_errcounter_inv i s0 s1 HI E1).
Qed.

(** X9: along every run that starts without a session, the error counter
    of the session is a valid [unsigned] and is either zero or below the
    configured threshold: it never reaches the threshold, because the call
    that would make it reach it resets it and requests a refresh. *)
Theorem errcounter_below_threshold :
  forall (ins : list input) (s0 s : lcb_st) (bs : lcb_bootstrap_st),
    bootstrap s0 = None ->
    run ins s0 = Some s ->
    bootstrap s = Some bs ->
    0 <= errcounter bs < 2 ^ 32 /\
    (errcounter bs = 0 \/ errcounter bs < weird_things_threshold (settings s)).
Proof.
  intros ins s0 s bs Hb0 E Hb.
  assert (HI : errcounter_inv s).
  { apply (run_errcounter_inv ins s0 s); [| exact E].
    unfold errcounter_inv. rewrite Hb0. exact I. }
  unfold errcounter_inv in HI. rewrite Hb in HI. exact HI.
Qed.

Lemma errcounter_below_threshold_witness :
  run [In_bootstrap_refresh 100 true; In_errcount_incr 101 102; In_errcount_incr 103 104]
    (fresh_instance LCB_TYPE_BUCKET default_settings) = Some twice_throttled_instance /\
  0 <= errcounter twice_throttled_session < 2 ^ 32 /\
  (errcounter twice_throttled_session = 0 \/
   errcounter twice_throttled_session
     < weird_things_threshold (settings twice_throttled_instance)).
Proof.
  split; [reflexivity |].
  apply (errcounter_below_threshold
           [In_bootstrap_refresh 100 true; In_errcount_incr 101 102;
            In_errcount_incr 103 104]
           (fresh_instance LCB_TYPE_BUCKET default_settings)
           twice_throttled_instance twice_throttled_session);
    reflexivity.
Defined.

Lemma throttled_n_zero (s : lcb_st) (bs : lcb_bootstrap_st) :
  bootstrap s = Some bs -> throttled_n 0 s bs = s.
Proof.
  intros Hb. destruct s as [b cm cfg le ty dt ci vb po tr].
  cbn [bootstrap] in Hb. subst b. destruct bs as [cb t lr bt ec].
  unfold throttled_n. cbn [repeat app Z.of_nat]. simpl_rec.
  rewrite Z.add_0_r. reflexivity.
Qed.

Lemma throttled_n_succ (n : nat) (s : lcb_st) (bs : lcb_bootstrap_st) :
  throttled_n n (throttled_n 1 s bs) (set_errcounter (errcounter bs + 1) bs)
    = throttled_n (S n) s bs.
Proof.
  destruct s as [b cm cfg le ty dt ci vb po tr]. destruct bs as [cb t lr bt ec].
  unfold throttled_n. simpl_rec. cbn [repeat app].
  rewrite repeat_app_cons.
  replace (ec + 1 + Z.of_nat n) with (ec + Z.of_nat (S n)) by lia.
  reflexivity.
Qed.

Lemma run_throttled (nows : list (hrtime_t * hrtime_t)) :
  forall (s : lcb_st) (bs : lcb_bootstrap_st),
    bootstrap s = Some bs ->
    0 <= errcounter bs ->
    errcounter bs + Z.of_nat (length nows) < weird_things_threshold (settings s) ->
    weird_things_threshold (settings s) <= 2 ^ 32 ->
    Forall (fun p => fst p < next_refresh_time s bs) nows ->
    run (errcount_calls nows) s = Some (throttled_n (length nows) s bs).
Proof.
  induction nows as [| [now now'] nows IH]; intros s bs Hb Hc Hn Hthr Hall.
  - cbn [errcount_calls map run length]. rewrite throttled_n_zero by exact Hb.
    reflexivity.
  - cbn [errcount_calls map]. fold (errcount_calls nows).
    cbn [fst snd]. rewrite run_cons. unfold next. rewrite Hb.
    inversion Hall as [| p l Hnow Hrest]; subst. cbn [fst] in Hnow.
    cbn [length] in Hn.
    assert (Hincr : errcounter_incr (errcounter bs) = errcounter bs + 1).
    { apply errcounter_incr_no_overflow; lia. }
    assert (Hs : suppressed s bs now = true).
    { apply suppressed_true_iff. rewrite Hincr. split; [exact Hnow | lia]. }
    rewrite Hs.
    assert (Ht : throttled s bs
                 = throttled_n 1 s bs).
    { unfold throttled, throttled_n. rewrite Hincr. reflexivity. }
    rewrite Ht.
    rewrite (IH (throttled_n 1 s bs) (set_errcounter (errcounter bs + 1) bs)).
    + rewrite throttled_n_succ. reflexivity.
    + reflexivity.
    + cbn [set_errcounter errcounter]. lia.
    + cbn [set_errcounter errcounter].
      change (settings (throttled_n 1 s bs)) with (settings s). lia.
    + exact Hthr.
    + exact Hrest.
Qed.

Lemma filter_repeat_throttle_log (n : nat) :
  filter is_confmon_call (repeat throttle_log n) = [].
Proof. induction n as [| n IH]; [reflexivity | exact IH]. Qed.

(** X10: error signals accumulate without any effect on the monitor as
    long as they stay inside the window and below the threshold: [n]
    calls of [lcb_bootstrap_errcount_incr] in a row, each before last
    refresh time plus delay, with the counter starting at [c] and
    [c + n] below the threshold, leave the counter at [c + n], log [n]
    suppressions, request no refresh, and keep the last refresh time, the
    listener and the timer as they were. *)
Theorem suppressed_calls_accumulate :
  forall (nows : list (hrtime_t * hrtime_t)) (s : lcb_st) (bs : lcb_bootstrap_st),
    bootstrap s = Some bs ->
    0 <= errcounter bs ->
    errcounter bs + Z.of_nat (length nows) < weird_things_threshold (settings s) ->
    weird_things_threshold (settings s) <= 2 ^ 32 ->
    Forall (fun p => fst p < next_refresh_time s bs) nows ->
    run (errcount_calls nows) s = Some (throttled_n (length nows) s bs) /\
    bootstrap (throttled_n (length nows) s bs)
      = Some (set_errcounter (errcounter bs + Z.of_nat (length nows)) bs) /\
    confmon_calls (throttled_n (length nows) s bs) = confmon_calls s /\
    pendops (throttled_n (length nows) s bs) = pendops s.
Proof.
  intros nows s bs Hb Hc Hn Hthr Hall.
  split; [apply run_throttled; assumption |].
  split; [reflexivity |]. split; [| reflexivity].
  unfold confmon_calls, throttled_n. cbn [set_trace trace].
  rewrite filter_app, filter_repeat_throttle_log. reflexivity.
Qed.

Lemma suppressed_calls_accumulate_witness :
  run (errcount_calls [(6000, 1); (7000, 2)]) steady_instance
    = Some (throttled_n 2 steady_instance steady_session) /\
  confmon_calls (throttled_n 2 steady_instance steady_session)
    = confmon_calls steady_instance.
Proof.
  destruct (suppressed_calls_accumulate [(6000, 1); (7000, 2)]
              steady_instance steady_session) as (Hrun & _ & Hcalls & _).
  - reflexivity.
  - discriminate.
  - reflexivity.
  - discriminate.
  - repeat constructor.
  - split; [exact Hrun | exact Hcalls].
Defined.

(** X11: two settings switch the throttle off.  With a threshold of 1 or
    less every error signal resets the counter and requests a refresh,
    whatever the time; with a delay of zero so does every signal that
    does not come before the last refresh. *)
Theorem throttle_disabled :
  forall (s : lcb_st) (bs : lcb_bootstrap_st) (now now' : hrtime_t),
    bootstrap s = Some bs ->
    (0 <= errcounter bs ->
     errcounter bs + 1 < 2 ^ 32 ->
     weird_things_threshold (settings s) <= 1 ->
     lcb_bootstrap_errcount_incr now now' s
       = (_ <- lcb_bootstrap_refresh now' false ;; ret tt) (counter_reset s bs)) /\
    (weird_things_delay (settings s) = 0 ->
     0 <= last_refresh bs < 2 ^ 64 ->
     last_refresh bs <= now ->
     lcb_bootstrap_errcount_incr now now' s
       = (_ <- lcb_bootstrap_refresh now' false ;; ret tt) (counter_reset s bs)).
Proof.
  intros s bs now now' Hb.
  pose proof (lcb_bootstrap_errcount_incr_eq s bs now now' Hb) as E.
  split.
  - intros Hc Hmax Hthr. rewrite E.
    destruct (suppressed s bs now) eqn:Hs; [| reflexivity].
    apply suppressed_true_iff in Hs. destruct Hs as [_ Hs].
    rewrite errcounter_incr_no_overflow in Hs by assumption. lia.
  - intros Hd Hlr Hnow. rewrite E.
    destruct (suppressed s bs now) eqn:Hs; [| reflexivity].
    apply suppressed_true_iff in Hs. destruct Hs as [Hs _].
    rewrite next_refresh_time_no_overflow in Hs.
    + rewrite Hd in Hs. unfold LCB_US2NS in Hs. lia.
    + rewrite Hd. unfold LCB_US2NS. lia.
Qed.

Lemma throttle_disabled_witness :
  lcb_bootstrap_errcount_incr 5001 5002
    (set_settings (mk_settings 5000000 1 1000000 0) steady_instance)
    = (_ <- lcb_bootstrap_refresh 5002 false ;; ret tt)
        (counter_reset (set_settings (mk_settings 5000000 1 1000000 0) steady_instance)
           steady_session) /\
  lcb_bootstrap_errcount_incr 5001 5002
    (set_settings (mk_settings 5000000 3 0 0) steady_instance)
    = (_ <- lcb_bootstrap_refresh 5002 false ;; ret tt)
        (counter_reset (set_settings (mk_settings 5000000 3 0 0) steady_instance)
           steady_session).
Proof.
  split.
  - apply (proj1 (throttle_disabled
                    (set_settings (mk_settings 5000000 1 1000000 0) steady_instance)
                    steady_session 5001 5002 eq_refl)).
    + discriminate.
    + reflexivity.
    + discriminate.
  - apply (proj2 (throttle_disabled
                    (set_settings (mk_settings 5000000 3 0 0) steady_instance)
                    steady_session 5001 5002 eq_refl)).
    + reflexivity.
    + split; [discriminate | reflexivity].
    + discriminate.
Defined.

(** ** Background refresh *)

Lemma next_quiet (i : input) (s : lcb_st) :
  idle_deferred s = true ->
  quiet_input i = true ->
  exists s' : lcb_st,
    next i s = Some s' /\
    idle_deferred s' = true /\
    user_callbacks s' = user_callbacks s /\
    pendops s' = pendops s /\
    last_error s' = last_error s /\
    cur_configinfo s' = cur_configinfo s.
Proof.
  intros Hidle Hq. destruct s as [b cm cfg le ty dt ci vb po tr].
  destruct b as [[cb [armed tgt] lr bt ec] |]; [| discriminate Hidle].
  destruct cb; try discriminate Hidle.
  destruct armed; [discriminate Hidle |].
  destruct i as [now ok | now ok | now now' | | | event info | | cm'];
    try discriminate Hq.
  - unfold next. simpl_rec.
    destruct (lcb_confmon_is_refreshing _);
      eexists; (split; [reflexivity |]); repeat (split; [reflexivity |]); reflexivity.
  - unfold next. simpl_rec.
    destruct (suppressed _ _ now); [| destruct (lcb_confmon_is_refreshing _)];
      eexists; (split; [reflexivity |]); repeat (split; [reflexivity |]); reflexivity.
  - eexists. split; [reflexivity |]. repeat (split; [reflexivity |]). reflexivity.
  - destruct event; try discriminate Hq;
      eexists; (split; [reflexivity |]); repeat (split; [reflexivity |]); reflexivity.
  - eexists. split; [reflexivity |]. repeat (split; [reflexivity |]). reflexivity.
  - eexists. split; [reflexivity |]. repeat (split; [reflexivity |]). reflexivity.
Qed.

Lemma run_quiet (ins : list input) :
  forall s : lcb_st,
    idle_deferred s = true ->
    forallb quiet_input ins = true ->
    exists s' : lcb_st,
      run ins s = Some s' /\
      idle_deferred s' = true /\
      user_callbacks s' = user_callbacks s /\
      pendops s' = pendops s /\
      last_error s' = last_error s /\
      cur_configinfo s' = cur_configinfo s.
Proof.
  induction ins as [| i ins IH]; intros s Hidle Hq.
  - exists s. split; [reflexivity |]. split; [exact Hidle |].
    repeat (split; [reflexivity |]). reflexivity.
  - cbn [forallb] in Hq. apply andb_true_iff in Hq. destruct Hq as [Hi Hins].
    destruct (next_quiet i s Hidle Hi) as (s1 & E1 & Hidle1 & Hcb1 & Hp1 & Hle1 & Hci1).
    destruct (IH s1 Hidle1 Hins) as (s' & E & Hidle' & Hcb & Hp & Hle & Hci).
    exists s'. rewrite run_cons, E1.
    split; [exact E |]. split; [exact Hidle' |].
    split; [congruence |]. split; [congruence |]. split; congruence.
Qed.

(** X12: a background refresh that finds nothing is never surfaced.  On
    an instance without a session, after a refresh created the session,
    any sequence of further refreshes, error signals, status queries,
    timer firings, changes of the monitor and monitor events other than
    a new configuration (exhausted providers included) is defined, calls
    no user callback, and leaves the pending counter, the last error and
    the owner's configuration as they were; no timeout is ever armed. *)
Theorem background_refresh_is_silent :
  forall (s : lcb_st) (now : hrtime_t) (ins : list input),
    bootstrap s = None ->
    forallb quiet_input ins = true ->
    exists s' : lcb_st,
      run (In_bootstrap_refresh now true :: ins) s = Some s' /\
      user_callbacks s' = user_callbacks s /\
      pendops s' = pendops s /\
      last_error s' = last_error s /\
      cur_configinfo s' = cur_configinfo s /\
      timer_armed_in s' = false /\
      is_sync s' = false.
Proof.
  intros s now ins Hb Hq.
  destruct (run_quiet ins (refreshed (session_created s) calloc_bs now) eq_refl Hq)
    as (s' & E & Hidle & Hcb & Hp & Hle & Hci).
  exists s'. rewrite run_cons. unfold next at 1. rewrite Hb.
  split; [exact E |]. split; [exact Hcb |]. split; [exact Hp |].
  split; [exact Hle |]. split; [exact Hci |].
  unfold idle_deferred in Hidle. unfold timer_armed_in, is_sync.
  destruct (bootstrap s') as [bs' |]; [| discriminate Hidle].
  destruct (listener_callback bs'); try discriminate Hidle.
  split; [| reflexivity].
  destruct (lcbio_timer_armed bs'); [discriminate Hidle | reflexivity].
Qed.

Lemma background_refresh_is_silent_witness :
  exists s' : lcb_st,
    run [In_bootstrap_refresh 100 true;
         In_notify CLCONFIG_EVENT_PROVIDERS_CYCLED None;
         In_timer;
         In_errcount_incr 101 102;
         In_notify CLCONFIG_EVENT_PROVIDERS_CYCLED None]
      (fresh_instance LCB_TYPE_BUCKET default_settings) = Some s' /\
    user_callbacks s' = [] /\
    pendops s' = 0.
Proof.
  destruct (background_refresh_is_silent
              (fresh_instance LCB_TYPE_BUCKET default_settings) 100
              [In_notify CLCONFIG_EVENT_PROVIDERS_CYCLED None;
               In_timer;
               In_errcount_incr 101 102;
               In_notify CLCONFIG_EVENT_PROVIDERS_CYCLED None]
              eq_refl eq_refl)
    as (s' & Hrun & Hcb & Hp & _).
  exists s'. split; [exact Hrun |]. split; [exact Hcb | exact Hp].
Defined.

(** X16: on the deferred target no event is handled inline.  Whatever the
    event, the owner's last error, configuration and pending counter, the
    session's flag, error counter and listener stay, no user callback
    runs and [config_callback] does not run; an event other than a new
    configuration changes nothing at all, and after a new configuration a
    dispatch is scheduled. *)
Theorem deferred_target_defers :
  forall (s : lcb_st) (bs : lcb_bootstrap_st) (event : clconfig_event_t)
         (info : option clconfig_info),
    bootstrap s = Some bs ->
    listener_callback bs = cb_async_step_callback ->
    exists (s' : lcb_st) (bs' : lcb_bootstrap_st),
      confmon_notify event info s = Some (tt, s') /\
      bootstrap s' = Some bs' /\
      listener_callback bs' = cb_async_step_callback /\
      bootstrapped bs' = bootstrapped bs /\
      errcounter bs' = errcounter bs /\
      last_refresh bs' = last_refresh bs /\
      last_error s' = last_error s /\
      cur_configinfo s' = cur_configinfo s /\
      vbconfig s' = vbconfig s /\
      pendops s' = pendops s /\
      user_callbacks s' = user_callbacks s /\
      configs_processed s' = configs_processed s /\
      (event <> CLCONFIG_EVENT_GOT_NEW_CONFIG -> s' = s) /\
      (event = CLCONFIG_EVENT_GOT_NEW_CONFIG -> dispatch_pending bs' = true).
Proof.
  intros s bs event info Hb Hcb.
  assert (E : confmon_notify event info s = async_step_callback event info s).
  { unfold confmon_notify. unfold bind at 1. unfold gets at 1.
    rewrite Hb, Hcb. reflexivity. }
  rewrite E.
  destruct (clconfig_event_eq_dec event CLCONFIG_EVENT_GOT_NEW_CONFIG) as [-> | Hne].
  - rewrite (async_step_callback_eq s bs info Hb).
    destruct (dispatch_pending bs) eqn:Hp.
    + exists (set_trace (dropped_log :: trace s) s), bs.
      split; [reflexivity |]. split; [exact Hb |]. split; [exact Hcb |].
      repeat (split; [reflexivity |]).
      split; [intros H; congruence | intros _; exact Hp].
    + exists (dispatch_scheduled s bs), (set_tm (mk_timer true tgt_async_refresh) bs).
      split; [reflexivity |]. split; [reflexivity |]. split; [exact Hcb |].
      repeat (split; [reflexivity |]).
      split; [intros H; congruence | intros _; reflexivity].
  - rewrite (async_step_callback_other s event info Hne).
    exists s, bs.
    split; [reflexivity |]. split; [exact Hb |]. split; [exact Hcb |].
    repeat (split; [reflexivity |]).
    intros H; congruence.
Qed.

Lemma deferred_target_defers_witness :
  exists (s' : lcb_st) (bs' : lcb_bootstrap_st),
    confmon_notify CLCONFIG_EVENT_GOT_NEW_CONFIG (Some cfg_ketama_http) steady_instance
      = Some (tt, s') /\
    bootstrap s' = Some bs' /\
    cur_configinfo s' = Some cfg_cccp /\
    dispatch_pending bs' = true.
Proof.
  destruct (deferred_target_defers steady_instance steady_session
              CLCONFIG_EVENT_GOT_NEW_CONFIG (Some cfg_ketama_http) eq_refl eq_refl)
    as (s' & bs' & Hrun & Hb & _ & _ & _ & _ & _ & Hci & _ & _ & _ & _ & _ & Hp).
  exists s', bs'. split; [exact Hrun |]. split; [exact Hb |].
  split; [exact Hci | apply Hp; reflexivity].
Defined.

(** ** Registration of the listener and of the timer *)

Lemma filter_new_config_add_listener (s : lcb_st) (bs : lcb_bootstrap_st)
    (info : option clconfig_info) :
  filter is_add_listener (new_config_calls s bs info) = [].
Proof.
  unfold new_config_calls.
  destruct (bootstrapped bs =? 0);
    destruct (reverts_to_http (new_config_result s bs info));
    destruct (type s); destruct info; reflexivity.
Qed.

Lemma filter_new_config_remove_listener (s : lcb_st) (bs : lcb_bootstrap_st)
    (info : option clconfig_info) :
  filter is_remove_listener (new_config_calls s bs info) = [].
Proof.
  unfold new_config_calls.
  destruct (bootstrapped bs =? 0);
    destruct (reverts_to_http (new_config_result s bs info));
    destruct (type s); destruct info; reflexivity.
Qed.

Lemma filter_new_config_timer_new (s : lcb_st) (bs : lcb_bootstrap_st)
    (info : option clconfig_info) :
  filter is_timer_new (new_config_calls s bs info) = [].
Proof.
  unfold new_config_calls.
  destruct (bootstrapped bs =? 0);
    destruct (reverts_to_http (new_config_result s bs info));
    destruct (type s); destruct info; reflexivity.
Qed.

Lemma filter_new_config_timer_destroy (s : lcb_st) (bs : lcb_bootstrap_st)
    (info : option clconfig_info) :
  filter is_timer_destroy (new_config_calls s bs info) = [].
Proof.
  unfold new_config_calls.
  destruct (bootstrapped bs =? 0);
    destruct (reverts_to_http (new_config_result s bs info));
    destruct (type s); destruct info; reflexivity.
Qed.

Lemma next_registration_inv (s0 : lcb_st) (i : input) (s s' : lcb_st) :
  registration_inv s0 s -> next i s = Some s' -> registration_inv s0 s'.
Proof.
  intros HI E. destruct s as [b cm cfg le ty dt ci vb po tr].
  unfold registration_inv, count_calls, session_count in HI.
  cbn [bootstrap trace] in HI. destruct HI as [HL HT].
  destruct b as [[cb [armed tgt] lr bt ec] |];
    destruct i; unfold next, on_new_config in E; simpl_rec_in E;
    break_next E; unfold registration_inv, count_calls, session_count;
    rewrite ?new_config_session, ?new_config_trace, ?filter_app,
      ?filter_new_config_add_listener, ?filter_new_config_remove_listener,
      ?filter_new_config_timer_new, ?filter_new_config_timer_destroy;
    unfold_results; simpl_rec;
    cbn [filter is_add_listener is_remove_listener is_timer_new is_timer_destroy
         length app];
    split; lia.
Qed.

Lemma run_registration_inv (s0 : lcb_st) (ins : list input) :
  forall s1 s : lcb_st,
    registration_inv s0 s1 -> run ins s1 = Some s -> registration_inv s0 s.
Proof.
  induction ins as [| i ins IH]; intros s1 s HI E.
  - injection E as <-. exact HI.
  - rewrite run_cons in E.
    destruct (next i s1) as [s2 |] eqn:E1; [| discriminate E].
    apply (IH s2 s); [| exact E].
    apply (next_registration_inv s0 i s1 s2 HI E1).
Qed.

(** X13: sessions, listeners and timers are paired.  Along every run that
    starts without a session, the listener registrations made since the
    start exceed the removals by one exactly when a session exists and
    equal them otherwise, and the same holds of timers created and
    destroyed: the listener is registered once per session and removed
    once at teardown, and no timer is leaked or destroyed twice. *)
Theorem registrations_balanced :
  forall (ins : list input) (s0 s : lcb_st),
    bootstrap s0 = None ->
    run ins s0 = Some s ->
    (count_calls is_add_listener s + count_calls is_remove_listener s0
     = count_calls is_remove_listener s + count_calls is_add_listener s0
       + session_count s)%nat /\
    (count_calls is_timer_new s + count_calls is_timer_destroy s0
     = count_calls is_timer_destroy s + count_calls is_timer_new s0
       + session_count s)%nat.
Proof.
  intros ins s0 s Hb0 E.
  apply (run_registration_inv s0 ins s0 s); [| exact E].
  unfold registration_inv, session_count. rewrite Hb0. split; lia.
Qed.

Lemma registrations_balanced_witness :
  run [In_bootstrap_initial 100 true; In_destroy; In_bootstrap_refresh 200 true]
    (fresh_instance LCB_TYPE_BUCKET default_settings) = Some recreated_instance /\
  (count_calls is_add_listener recreated_instance
   + count_calls is_remove_listener (fresh_instance LCB_TYPE_BUCKET default_settings)
   = count_calls is_remove_listener recreated_instance
     + count_calls is_add_listener (fresh_instance LCB_TYPE_BUCKET default_settings)
     + session_count recreated_instance)%nat.
Proof.
  assert (E : run [In_bootstrap_initial 100 true; In_destroy; In_bootstrap_refresh 200 true]
                (fresh_instance LCB_TYPE_BUCKET default_settings)
              = Some recreated_instance) by (vm_compute; reflexivity).
  split; [exact E |].
  apply (proj1 (registrations_balanced
                  [In_bootstrap_initial 100 true; In_destroy; In_bootstrap_refresh 200 true]
                  (fresh_instance LCB_TYPE_BUCKET default_settings)
                  recreated_instance eq_refl E)).
Defined.

(** ** Configurations after the first *)

Lemma new_config_settings (s : lcb_st) (bs : lcb_bootstrap_st)
    (info : option clconfig_info) :
  settings (new_config_result s bs info)
    = if (bootstrapped bs =? 0) && reverts_to_http (new_config_result s bs info)
      then set_bc_http_stream_time (-1) (settings s)
      else settings s.
Proof.
  destruct s as [b cm cfg le ty dt ci vb po tr].
  destruct bs as [cb t lr bt ec].
  destruct ty; destruct info as [[o [d id]] |]; destruct bt; try reflexivity;
    try (destruct d; destruct o; reflexivity);
    destruct dt; destruct ci as [[o' v'] |]; try destruct o'; reflexivity.
Qed.

Lemma filter_new_config_provider_call (s : lcb_st) (bs : lcb_bootstrap_st)
    (info : option clconfig_info) :
  filter is_provider_call (new_config_calls s bs info)
    = if (bootstrapped bs =? 0) && reverts_to_http (new_config_result s bs info)
      then [call_lcb_confmon_set_provider_active LCB_CLCONFIG_CCCP 0;
            call_lcb_confmon_set_provider_active LCB_CLCONFIG_HTTP 1]
      else [].
Proof.
  unfold new_config_calls.
  destruct (bootstrapped bs =? 0);
    destruct (reverts_to_http (new_config_result s bs info));
    destruct (type s); destruct info; reflexivity.
Qed.

(** X14: a new configuration processed after the first success
    ([bootstrapped] not 0) is applied silently: the last error is cleared,
    the listener is deferred, the timer disarmed and the topology applied
    (bucket instances), but no user callback runs, the pending counter,
    the settings, the providers and the session's flag, error counter and
    last refresh time stay as they were. *)
Theorem later_config_is_silent :
  forall (s : lcb_st) (bs : lcb_bootstrap_st) (info : option clconfig_info),
    bootstrap s = Some bs ->
    bootstrapped bs <> 0 ->
    type s = LCB_TYPE_CLUSTER \/ info <> None ->
    exists s' : lcb_st,
      config_callback CLCONFIG_EVENT_GOT_NEW_CONFIG info s = Some (tt, s') /\
      bootstrap s' = Some (deferred_session bs) /\
      user_callbacks s' = user_callbacks s /\
      pendops s' = pendops s /\
      count_calls is_aspend_del s' = count_calls is_aspend_del s /\
      provider_calls s' = provider_calls s /\
      settings s' = settings s /\
      last_error s' = LCB_SUCCESS /\
      configs_processed s' = S (configs_processed s) /\
      (forall ci : clconfig_info,
         type s = LCB_TYPE_BUCKET -> info = Some ci -> cur_configinfo s' = Some ci).
Proof.
  intros s bs info Hb Hbt Hdef.
  assert (Hz : (bootstrapped bs =? 0) = false) by (apply Z.eqb_neq; exact Hbt).
  exists (new_config_result s bs info).
  split; [apply config_callback_new_config; assumption |].
  split; [rewrite new_config_session, Hz; reflexivity |].
  unfold user_callbacks, count_calls, provider_calls.
  rewrite new_config_trace, !filter_app, filter_new_config_user_callback,
    filter_new_config_aspend_del, filter_new_config_provider_call, Hz.
  split; [reflexivity |].
  split; [rewrite new_config_pendops, Hz; reflexivity |].
  split; [reflexivity |]. split; [reflexivity |].
  split; [rewrite new_config_settings, Hz; reflexivity |].
  split; [apply new_config_last_error |].
  split; [apply configs_processed_new_config |].
  intros ci Ht ->.
  destruct (new_config_topology s bs (Some ci)) as (Hci & _).
  rewrite Ht in Hci. exact Hci.
Qed.

Lemma later_config_is_silent_witness :
  exists s' : lcb_st,
    config_callback CLCONFIG_EVENT_GOT_NEW_CONFIG (Some cfg_ketama_http) steady_instance
      = Some (tt, s') /\
    user_callbacks s' = [] /\
    provider_calls s' = [] /\
    cur_configinfo s' = Some cfg_ketama_http.
Proof.
  destruct (later_config_is_silent steady_instance steady_session (Some cfg_ketama_http)
              eq_refl)
    as (s' & Hrun & _ & Hcb & _ & _ & Hprov & _ & _ & _ & Hci).
  - discriminate.
  - right. discriminate.
  - exists s'. split; [exact Hrun |]. split; [exact Hcb |].
    split; [exact Hprov |]. apply (Hci cfg_ketama_http); reflexivity.
Defined.

(** X15: the order of the first success.  [config_callback] disarms the
    timer and applies the topology first, then calls [lcb_aspend_del];
    when the bucket reverts to HTTP it then sets [bc_http_stream_time] to
    -1, enables the HTTP provider and only then disables the CCCP
    provider; the completion callback runs after all of this and
    [lcb_maybe_breakout] last.  No other setting changes. *)
Theorem first_success_call_order :
  forall (s : lcb_st) (bs : lcb_bootstrap_st) (info : option clconfig_info),
    bootstrap s = Some bs ->
    bootstrapped bs = 0 ->
    type s = LCB_TYPE_CLUSTER \/ info <> None ->
    exists s' : lcb_st,
      config_callback CLCONFIG_EVENT_GOT_NEW_CONFIG info s = Some (tt, s') /\
      trace s'
        = call_lcb_maybe_breakout
            :: call_callbacks_bootstrap LCB_SUCCESS
            :: (if reverts_to_http s'
                then [call_lcb_confmon_set_provider_active LCB_CLCONFIG_CCCP 0;
                      call_lcb_confmon_set_provider_active LCB_CLCONFIG_HTTP 1;
                      call_lcb_log LCB_LOG_INFO
                        "Reverting to HTTP Config for memcached buckets"]
                else [])
            ++ call_lcb_aspend_del
            :: match type s, info with
               | LCB_TYPE_BUCKET, Some ci => [call_lcb_update_vbconfig ci]
               | _, _ => []
               end
            ++ call_lcb_log LCB_LOG_DEBUG "Instance configured!"
            :: call_lcbio_timer_disarm
            :: trace s /\
      settings s'
        = (if reverts_to_http s'
           then set_bc_http_stream_time (-1) (settings s)
           else settings s) /\
      (reverts_to_http s' = true -> bc_http_stream_time (settings s') = -1).
Proof.
  intros s bs info Hb Hbt Hdef.
  assert (Hz : (bootstrapped bs =? 0) = true) by (rewrite Hbt; reflexivity).
  exists (new_config_result s bs info).
  split; [apply config_callback_new_config; assumption |].
  assert (Hset : settings (new_config_result s bs info)
                 = if reverts_to_http (new_config_result s bs info)
                   then set_bc_http_stream_time (-1) (settings s)
                   else settings s).
  { rewrite new_config_settings, Hz. reflexivity. }
  split.
  { rewrite new_config_trace. unfold new_config_calls, revert_calls. rewrite Hz.
    destruct (reverts_to_http (new_config_result s bs info));
      destruct (type s); destruct info; reflexivity. }
  split; [exact Hset |].
  intros Hr. rewrite Hset, Hr. reflexivity.
Qed.

Lemma first_success_call_order_witness :
  exists s' : lcb_st,
    config_callback CLCONFIG_EVENT_GOT_NEW_CONFIG (Some cfg_ketama_http)
      ketama_bootstrapping = Some (tt, s') /\
    bc_http_stream_time (settings s') = -1.
Proof.
  destruct (first_success_call_order ketama_bootstrapping bootstrapping_session
              (Some cfg_ketama_http) eq_refl eq_refl)
    as (s' & Hrun & _ & _ & Hneg).
  - right. discriminate.
  - exists s'. split; [exact Hrun |]. apply Hneg.
    assert (E : Some (tt, s')
                = Some (tt, new_config_result ketama_bootstrapping bootstrapping_session
                              (Some cfg_ketama_http))).
    { rewrite <- Hrun. apply config_callback_new_config; [reflexivity |].
      right. discriminate. }
    injection E as ->. reflexivity.
Defined.
